(** * code-formatting: the uncrustify wrapper scripts

    A shallow embedding of [scripts/uncrustify/format.py] (the procedural
    script) and [scripts/uncrustify/formatter.py] (the class-wrapped
    variant), together with the part of the Python runtime they call:
    [pathlib] pure paths, [Path.resolve], [Path.glob], [open]/[os.remove],
    [subprocess], [shlex.split], [argparse] and [datetime.strftime].

    The file system is a finite map from absolute paths (lists of path
    components) to nodes; a run is a state transformer over a [World]
    (file system, standard output, processes spawned) that ends in a value,
    a raised exception or [SystemExit]. *)

From stdpp Require Import gmap strings list fin_maps pretty.
From Stdlib Require Import ZArith Ascii.

Open Scope string_scope.
Open Scope list_scope.
Open Scope Z_scope.
Open Scope nat_scope.

(* ===================================================================== *)
(** ** pathlib: pure paths                                                *)
(* ===================================================================== *)

(** A [pathlib.PurePosixPath]: whether it starts at the root, and its
    components.  [Path("../.git")] is [rel [".."; ".git"]]; the constructor
    of [pathlib] drops empty and ["."] components and trailing slashes, so
    [parts] never holds them. *)
Record Path := mkPath { anchored : bool; parts : list string }.

#[global] Instance Path_eq_dec : EqDecision Path.
Proof. solve_decision. Defined.

Definition rel (ps : list string) : Path := mkPath false ps.
Definition abs (ps : list string) : Path := mkPath true ps.

(** ["/".join(parts)] *)
Fixpoint join_sep (ps : list string) : string :=
  match ps with
  | [] => ""
  | [p] => p
  | p :: ps' => p +:+ "/" +:+ join_sep ps'
  end.

(** [Path.as_posix()]; on POSIX [str(path)] is the same string. *)
Definition as_posix (p : Path) : string :=
  if anchored p then "/" +:+ join_sep (parts p)
  else match parts p with [] => "." | _ => join_sep (parts p) end.

(** [Path.joinpath(a, b)]: an absolute [b] replaces [a]. *)
Definition joinpath (a b : Path) : Path :=
  if anchored b then b else mkPath (anchored a) (parts a ++ parts b).

(** [Path.parent]: drops the last component (the root and ["."] are their
    own parents). *)
Definition parent (p : Path) : Path :=
  mkPath (anchored p) (removelast (parts p)).

(** [str.startswith] *)
Definition startswith (s pre : string) : bool := String.prefix pre s.

(** [fnmatch] of a name against [*suf]: the name ends with [suf]. *)
Fixpoint starts_with_chars (pre s : list ascii) : bool :=
  match pre, s with
  | [], _ => true
  | _ :: _, [] => false
  | a :: pre', b :: s' => bool_decide (a = b) && starts_with_chars pre' s'
  end.

Definition ends_with (suf name : string) : bool :=
  starts_with_chars (rev (String.list_ascii_of_string suf))
                    (rev (String.list_ascii_of_string name)).

(* ===================================================================== *)
(** ** The file system                                                    *)
(* ===================================================================== *)

Inductive node :=
  | Dir
  | File (content : string)
  | Link (target : Path).

#[global] Instance node_eq_dec : EqDecision node.
Proof. solve_decision. Defined.

(** Absolute, physical paths to nodes.  The root directory [[]] always
    exists. *)
Abbreviation FS := (gmap (list string) node).

Definition lookup_node (fs : FS) (p : list string) : option node :=
  match p with
  | [] => Some Dir
  | _ => fs !! p
  end.

(** How many symbolic links one resolution expands before it gives up on
    the path as a loop. *)
Definition MAXSYMLINKS : nat := 40.

(** [os.path.realpath] (non-strict): walk the components [rest] from the
    already physical directory [path]; [".."] pops the last component, a
    component that is a symbolic link is replaced by its target (an
    absolute target restarts from the root), anything else, existing or
    not, is appended.  When the link budget is used up the path is returned
    as far as it was resolved, followed by the components left. *)
Fixpoint realpath (budget : nat) (fs : FS) : list string -> list string -> list string :=
  fix walk (rest path : list string) {struct rest} : list string :=
    match rest with
    | [] => path
    | name :: rest' =>
        if bool_decide (name = "..") then walk rest' (removelast path)
        else
          let newpath := path ++ [name] in
          match fs !! newpath with
          | Some (Link t) =>
              match budget with
              | O => newpath ++ rest'
              | S b => realpath b fs (parts t ++ rest')
                         (if anchored t then [] else path)
              end
          | _ => walk rest' newpath
          end
    end.

(** [strip_base base p]: the components of [p] below [base], when [p] lies
    at or below it. *)
Fixpoint strip_base (base p : list string) : option (list string) :=
  match base, p with
  | [], _ => Some p
  | _ :: _, [] => None
  | b :: base', x :: p' => if bool_decide (b = x) then strip_base base' p' else None
  end.

(** Every directory on the way from [base] down to the entry [base ++ rest]
    (the entry itself apart) is a real directory: the recursive walk of
    [**] does not descend through symbolic links. *)
Definition walkable (fs : FS) (base rest : list string) : bool :=
  forallb (fun k => bool_decide (lookup_node fs (base ++ take k rest) = Some Dir))
          (seq 0 (List.length rest)).

(** The entries the pattern [**/<name pattern>] yields below the physical
    directory [base], as paths relative to it.  Files, directories and
    links are all yielded when their name matches.  The order is the one
    the file system lists its entries in. *)
Definition glob_under (fs : FS) (base : list string) (m : string -> bool)
  : list (list string) :=
  omap (fun '(p, _) =>
          match strip_base base p with
          | Some rest =>
              if bool_decide (rest <> []) && m (List.last rest "") && walkable fs base rest
              then Some rest else None
          | None => None
          end)
       (map_to_list fs).

(* ===================================================================== *)
(** ** The process and its environment                                    *)
(* ===================================================================== *)

(** [datetime.now()] *)
Record datetime := mkDatetime {
  year : nat; month : nat; day : nat;
  hour : nat; minute : nat; second : nat
}.

(** What a child process did: it could not be launched, or it ran to its
    end with an exit code and what it wrote to its standard output. *)
Inductive proc_result :=
  | LaunchError
  | Finished (returncode : Z) (output : list Byte.byte).

(** What a run of the script is given and cannot change: the working
    directory (a physical path), the value of [__file__], the arguments
    of the command line after the script, the clock and the programs on
    the execution path, as a function from the argument vector and the
    file system they see to what they do.  The writes of a child process
    to the file system are not part of the model. *)
Record Env := mkEnv {
  cwd : list string;
  file_ : Path;
  sys_argv : list string;
  now : datetime;
  run_process : list string -> FS -> proc_result
}.

Inductive exn :=
  | AttributeError (attr : string)
  | FileNotFoundError
  | IsADirectoryError
  | OSError
  | CalledProcessError (returncode : Z)
  | ValueError.

(** How a computation ends: with a value, with an exception that nothing
    catches, or with [SystemExit(code)]. *)
Inductive outcome (A : Type) :=
  | Ok (a : A)
  | Raise (e : exn)
  | SysExit (code : Z).
Arguments Ok {A} a.
Arguments Raise {A} e.
Arguments SysExit {A} code.

(** A child process in the record of a run: its argument vector, the file
    system it was started on, and what it did. *)
Record Spawn := mkSpawn {
  sp_argv : list string;
  sp_fs : FS;
  sp_result : proc_result
}.

#[global] Instance byte_eqdec : EqDecision Byte.byte := Byte.byte_eq_dec.

#[global] Instance proc_result_eq_dec : EqDecision proc_result.
Proof. solve_decision. Defined.

#[global] Instance exn_eq_dec : EqDecision exn.
Proof. solve_decision. Defined.

#[global] Instance outcome_eq_dec {A} `{EqDecision A} : EqDecision (outcome A).
Proof. solve_decision. Defined.

#[global] Instance Spawn_eq_dec : EqDecision Spawn.
Proof. solve_decision. Defined.

(** The state a run changes: the file system, the lines printed, and the
    processes it spawned, oldest first. *)
Record World := mkWorld {
  fs : FS;
  stdout : list string;
  spawned : list Spawn
}.

#[global] Instance World_eq_dec : EqDecision World.
Proof. solve_decision. Defined.

Definition M (A : Type) : Type := World -> outcome A * World.

Definition ret {A} (a : A) : M A := fun w => (Ok a, w).
Definition raise {A} (e : exn) : M A := fun w => (Raise e, w).
Definition exit {A} (code : Z) : M A := fun w => (SysExit code, w).
Definition bind {A B} (m : M A) (k : A -> M B) : M B :=
  fun w => match m w with
           | (Ok a, w') => k a w'
           | (Raise e, w') => (Raise e, w')
           | (SysExit c, w') => (SysExit c, w')
           end.

Declare Scope py_scope.
Delimit Scope py_scope with py.
Notation "x <- m ;; k" := (bind m (fun x => k))
  (at level 100, m at next level, right associativity) : py_scope.
Notation "m ;;; k" := (bind m (fun _ => k))
  (at level 100, right associativity) : py_scope.
Open Scope py_scope.

Definition get_fs : M FS := fun w => (Ok (fs w), w).
Definition set_fs (f : FS) : M unit :=
  fun w => (Ok tt, mkWorld f (stdout w) (spawned w)).

(** [print(line)] *)
Definition print (line : string) : M unit :=
  fun w => (Ok tt, mkWorld (fs w) (stdout w ++ [line]) (spawned w)).

(** [for x in xs: body(x)] *)
Fixpoint for_each {A} (xs : list A) (body : A -> M unit) : M unit :=
  match xs with
  | [] => ret tt
  | x :: xs' => body x ;;; for_each xs' body
  end.

(** *** pathlib on the file system *)

(** [Path.absolute()]: prefix the working directory, nothing else. *)
Definition absolute (e : Env) (p : Path) : Path :=
  if anchored p then p else abs (cwd e ++ parts p).

(** [Path.resolve()]: the physical absolute path.  A path caught in a loop
    of links comes back as far as it was resolved. *)
Definition resolve (e : Env) (f : FS) (p : Path) : Path :=
  abs (realpath MAXSYMLINKS f (parts p) (if anchored p then [] else cwd e)).

(** [base.glob("**/" + pattern)]: the directory read is the one [base]
    names (links followed); the paths yielded are [base / rest]. *)
Definition glob (e : Env) (f : FS) (base : Path) (m : string -> bool) : list Path :=
  (fun rest => mkPath (anchored base) (parts base ++ rest)) <$>
      glob_under f (parts (resolve e f base)) m.

(** *** open, write, close and os.remove *)

(** The node [open(name, "w")] writes: the entry of that name in the
    working directory, or what it points to when it is a link. *)
Definition open_target (e : Env) (f : FS) (name : string) : list string :=
  realpath MAXSYMLINKS f [name] (cwd e).

(** [f = open(name, "w"); f.write(content); f.close()]: the file is
    created, or emptied when it exists, in a directory that exists. *)
Definition write_file (e : Env) (name content : string) : M unit :=
  f <- get_fs ;;
  let p := open_target e f name in
  match lookup_node f p with
  | Some Dir => raise IsADirectoryError
  | Some (Link _) => raise OSError
  | _ =>
      match lookup_node f (removelast p) with
      | Some Dir => set_fs (<[p := File content]> f)
      | _ => raise FileNotFoundError
      end
  end.

(** [os.remove(name)]: unlinks the entry itself, file or link. *)
Definition os_remove (e : Env) (name : string) : M unit :=
  f <- get_fs ;;
  let p := cwd e ++ [name] in
  match f !! p with
  | Some Dir => raise IsADirectoryError
  | Some _ => set_fs (delete p f)
  | None => raise FileNotFoundError
  end.

(** *** subprocess *)

(** The child is looked up and run, and recorded. *)
Definition spawn (e : Env) (argv : list string) : M proc_result :=
  fun w => let r := run_process e argv (fs w) in
           (Ok r, mkWorld (fs w) (stdout w) (spawned w ++ [mkSpawn argv (fs w) r])).

(** [subprocess.check_output(argv)] *)
Definition check_output (e : Env) (argv : list string) : M (list Byte.byte) :=
  r <- spawn e argv ;;
  match r with
  | LaunchError => raise FileNotFoundError
  | Finished rc out =>
      if bool_decide (rc = 0%Z) then ret out else raise (CalledProcessError rc)
  end.

(** [p = subprocess.Popen(argv); p.wait(); p.communicate(); p.returncode] *)
Definition popen_wait (e : Env) (argv : list string) : M Z :=
  r <- spawn e argv ;;
  match r with
  | LaunchError => raise FileNotFoundError
  | Finished rc _ => ret rc
  end.

(** [bytes.strip(chars)]: drop the leading and the trailing bytes that are
    in [chars]. *)
Fixpoint lstrip (chars bs : list Byte.byte) : list Byte.byte :=
  match bs with
  | [] => []
  | b :: bs' => if bool_decide (b ∈ chars) then lstrip chars bs' else bs
  end.

Definition strip (chars bs : list Byte.byte) : list Byte.byte :=
  rev (lstrip chars (rev (lstrip chars bs))).

(** [b"..."] *)
Definition bytes (s : string) : list Byte.byte := String.list_byte_of_string s.

(** *** shlex.split *)

(** [shlex.split(s)]: the POSIX lexer with [whitespace_split] on and no
    comment characters.  Its states: between words, inside a word, inside
    a quotation (single or double), and after a backslash (remembering the
    quotation it came from, if any). *)
Inductive lex_state :=
  | LexSpace
  | LexWord
  | LexQuote (q : ascii)
  | LexEscape (back : option ascii).

Record lexer := mkLexer {
  lstate : lex_state;
  token : string;
  quoted : bool;
  emitted : list string
}.

Definition is_whitespace (c : ascii) : bool :=
  bool_decide (c ∈ [" "%char; ascii_of_nat 9; ascii_of_nat 13; ascii_of_nat 10]).
Definition is_quote (c : ascii) : bool :=
  bool_decide (c ∈ ["'"%char; ascii_of_nat 34]).
Definition is_escape (c : ascii) : bool := bool_decide (c = "\"%char).

Definition push (t : string) (c : ascii) : string := t +:+ String c "".

(** The end of a word: it is a token when it is not empty or was quoted. *)
Definition emit_token (l : lexer) : list string :=
  if negb (bool_decide (token l = "")) || quoted l
  then emitted l ++ [token l] else emitted l.

Definition lex_step (l : lexer) (c : ascii) : lexer :=
  match lstate l with
  | LexSpace =>
      if is_whitespace c then l
      else if is_escape c then mkLexer (LexEscape None) (token l) (quoted l) (emitted l)
      else if is_quote c then mkLexer (LexQuote c) (token l) (quoted l) (emitted l)
      else mkLexer LexWord (String c "") (quoted l) (emitted l)
  | LexQuote q =>
      if bool_decide (c = q) then mkLexer LexWord (token l) true (emitted l)
      else if is_escape c && bool_decide (q = ascii_of_nat 34)
      then mkLexer (LexEscape (Some q)) (token l) true (emitted l)
      else mkLexer (LexQuote q) (push (token l) c) true (emitted l)
  | LexEscape back =>
      match back with
      | Some q =>
          let t := if negb (is_escape c) && negb (bool_decide (c = q))
                   then push (token l) "\"%char else token l in
          mkLexer (LexQuote q) (push t c) (quoted l) (emitted l)
      | None => mkLexer LexWord (push (token l) c) (quoted l) (emitted l)
      end
  | LexWord =>
      if is_whitespace c then mkLexer LexSpace "" false (emit_token l)
      else if is_quote c then mkLexer (LexQuote c) (token l) (quoted l) (emitted l)
      else if is_escape c then mkLexer (LexEscape None) (token l) (quoted l) (emitted l)
      else mkLexer LexWord (push (token l) c) (quoted l) (emitted l)
  end.

Definition lex_end (l : lexer) : option (list string) :=
  match lstate l with
  | LexSpace => Some (emitted l)
  | LexWord => Some (emit_token l)
  | LexQuote _ => None
  | LexEscape _ => None
  end.

Definition shlex_split (s : string) : option (list string) :=
  lex_end (fold_left lex_step (String.list_ascii_of_string s)
                     (mkLexer LexSpace "" false [])).

(** *** datetime.strftime *)

Definition digit (n : nat) : ascii := ascii_of_nat (48 + n mod 10).

(** [%m], [%d], [%H], [%M], [%S]: two digits. *)
Definition pad2 (n : nat) (k : string) : string :=
  String (digit (n / 10)) (String (digit n) k).

(** [%Y]: four digits. *)
Definition pad4 (n : nat) (k : string) : string :=
  String (digit (n / 1000)) (String (digit (n / 100)) (pad2 n k)).

(** [t.strftime("%Y-%m-%d-%H-%M-%S.txt")] *)
Definition strftime (t : datetime) : string :=
  pad4 (year t) (String "-" (pad2 (month t) (String "-" (pad2 (day t)
    (String "-" (pad2 (hour t) (String "-" (pad2 (minute t)
      (String "-" (pad2 (second t) ".txt")))))))))).

(** *** argparse *)

(** An argument added with [action='store_true']. *)
Record Argument := mkArgument {
  option_strings : list string;
  dest : string
}.

(** [parser.parse_args()] over the arguments of the command line: every
    argument has to be an option string of the parser; [-h] and [--help]
    print the usage and leave with 0, anything else is an error that
    leaves with 2.  The result is the set of destinations stored as
    true.  (The abbreviations and bundles [argparse] also accepts are left
    out.) *)
Fixpoint parse_args (arguments : list Argument) (argv : list string)
  : M (list string) :=
  match argv with
  | [] => ret []
  | a :: argv' =>
      if bool_decide (a ∈ ["-h"; "--help"]) then print "usage" ;;; exit 0%Z
      else
        match List.find (fun arg => bool_decide (a ∈ option_strings arg)) arguments with
        | Some arg =>
            ns <- parse_args arguments argv' ;;
            ret (dest arg :: ns)
        | None => print "error: unrecognized arguments" ;;; exit 2%Z
        end
  end.

(** The exit status of the interpreter: 0 when the script runs to its
    end, the argument of [exit] on [SystemExit], 1 on a traceback. *)
Definition exit_status {A} (o : outcome A) : Z :=
  match o with
  | Ok _ => 0%Z
  | SysExit c => c
  | Raise _ => 1%Z
  end.

Definition nl : string := String (ascii_of_nat 10) "".

(** [sep.join(xs)] *)
Fixpoint str_join (sep : string) (xs : list string) : string :=
  match xs with
  | [] => ""
  | [x] => x
  | x :: xs' => x +:+ sep +:+ str_join sep xs'
  end.

(** The values a module binds when it is imported that depend on the file
    system of that moment. *)
Record Globals := mkGlobals {
  EXCLUDE_DIRECTORIES : list Path;
  SEARCH_PATH : Path;
  CONFIG_PATH : Path
}.

(* ===================================================================== *)
(** ** scripts/uncrustify/format.py                                       *)
(* ===================================================================== *)

Module Format.

(** The directories listed in the source, before the module extends the
    list. *)
Definition EXCLUDE_DIRECTORIES_listed : list Path :=
  [ rel [".."; ".git"]; rel [".."; "bat"]; rel [".."; "build"];
    rel [".."; "certs"]; rel [".."; "docker"]; rel [".."; "res"];
    rel [".."; "scripts"]; rel [".."; "release"]; rel [".."; "tiny-AES-c"] ].

Definition EXCLUDE_FILES : list Path :=
  [ rel [".."; "src"; "foo.cpp"]; rel [".."; "src"; "bar.h"] ].

Definition PATH_OF_THIS_FILE (e : Env) : Path :=
  absolute e (parent (file_ e)).

Definition evaluate_relative_path (e : Env) (f : FS) (path : Path) : Path :=
  resolve e f (joinpath (PATH_OF_THIS_FILE e) path).

Definition UNCRUSTIFY_VERSION_TO_CHECK : list Byte.byte :=
  bytes "Uncrustify-0.72.0_f".

(** The module body, run on the file system [f] of import time. *)
Definition import_module (e : Env) (f : FS) : Globals :=
  {| EXCLUDE_DIRECTORIES :=
       EXCLUDE_DIRECTORIES_listed
       ++ glob e f (rel [".."; "tests"]) (fun name => startswith name "build");
     SEARCH_PATH := evaluate_relative_path e f (rel [".."]);
     CONFIG_PATH := evaluate_relative_path e f (rel ["uncrustify.cfg"]) |}.

Definition execute_command (e : Env) (command : string) : M Z :=
  print ("> " +:+ command) ;;;
  match shlex_split command with
  | Some argv => popen_wait e argv
  | None => raise ValueError
  end.

Definition is_file_excluded (e : Env) (g : Globals) (f : FS) (file : Path) : bool :=
  if existsb (fun exclude_directory =>
                startswith (as_posix file)
                  (as_posix (evaluate_relative_path e f exclude_directory)))
             (EXCLUDE_DIRECTORIES g)
  then true
  else if existsb (fun exclude_file =>
                     bool_decide (as_posix file
                                  = as_posix (evaluate_relative_path e f exclude_file)))
                  EXCLUDE_FILES
  then true
  else false.

(** The entries the three chained globs yield, in that order. *)
Definition walk (e : Env) (g : Globals) (f : FS) : list Path :=
  let search_path := evaluate_relative_path e f (SEARCH_PATH g) in
  glob e f search_path (ends_with ".cpp")
  ++ glob e f search_path (ends_with ".c")
  ++ glob e f search_path (ends_with ".h").

(** The body of the loop, from the entries left and the list so far. *)
Fixpoint collect (e : Env) (g : Globals) (entries files : list Path)
  : M (list Path) :=
  match entries with
  | [] => ret files
  | file :: entries' =>
      f <- get_fs ;;
      let file := resolve e f file in
      if negb (is_file_excluded e g f file)
      then collect e g entries' (files ++ [file])
      else collect e g entries' files
  end.

Definition generate_list_of_files_to_format (e : Env) (g : Globals)
  : M (list Path) :=
  f <- get_fs ;;
  collect e g (walk e g f) [].

Definition correct_uncrustify_version (e : Env) : M bool :=
  out <- check_output e ["uncrustify"; "--version"] ;;
  ret (bool_decide (strip [Byte.x0d; Byte.x0a] out = UNCRUSTIFY_VERSION_TO_CHECK)).

Definition check_args (check : bool) : string :=
  if check then "--check" else "--replace --no-backup --if-changed".

Definition temp_file_name : string := "uncrustify_temp.txt".

(** The text of the manifest: one path a line. *)
Definition manifest (files : list Path) : string :=
  fold_right (fun file k => as_posix file +:+ nl +:+ k) "" files.

(** The command line for the files listed in the manifest. *)
Definition command (g : Globals) (check : bool) : string :=
  "uncrustify -c " +:+ as_posix (CONFIG_PATH g) +:+ " " +:+ check_args check
  +:+ " -F " +:+ temp_file_name.

(** The text of the file named after the time of the run. *)
Definition exclusions_text (g : Globals) : string :=
  str_join ("," +:+ nl) (map as_posix (EXCLUDE_DIRECTORIES g))
  +:+ nl +:+ nl
  +:+ str_join ("," +:+ nl) (map as_posix EXCLUDE_FILES).

Definition format_cpp (e : Env) (g : Globals) (check : bool) : M unit :=
  write_file e (strftime (now e)) (exclusions_text g) ;;;
  ok <- correct_uncrustify_version e ;;
  (if negb ok
   then print "WARNING: You are using the wrong uncrustify version. Please install b'Uncrustify-0.72.0_f'"
   else ret tt) ;;;
  files <- generate_list_of_files_to_format e g ;;
  write_file e temp_file_name (manifest files) ;;;
  exit_code <- execute_command e (command g check) ;;
  os_remove e temp_file_name ;;;
  if bool_decide (exit_code <> 0%Z)
  then print ("COMMAND FAILED (exit code: " +:+ pretty exit_code +:+ ")") ;;;
       exit exit_code
  else ret tt.

(** [parser.add_argument("--check", "-c", action='store_true', ...)] *)
Definition arguments : list Argument :=
  [ mkArgument ["--check"; "-c"] "check" ].

(** The script from its first line: the module body, then the block
    under [if __name__ == "__main__"]. *)
Definition main (e : Env) : M unit :=
  f <- get_fs ;;
  let g := import_module e f in
  args <- parse_args arguments (sys_argv e) ;;
  format_cpp e g (bool_decide ("check" ∈ args)).

End Format.

(* ===================================================================== *)
(** ** scripts/uncrustify/formatter.py                                    *)
(* ===================================================================== *)

Module Formatter.

Definition EXCLUDE_DIRECTORIES_listed : list Path :=
  [ rel [".."; ".git"]; rel [".."; "bat"]; rel [".."; "build"];
    rel [".."; "certs"]; rel [".."; "docker"]; rel [".."; "res"];
    rel [".."; "scripts"]; rel [".."; "release"]; rel [".."; "tiny-AES-c"] ].

Definition EXCLUDE_FILES : list Path :=
  [ rel [".."; "src"; "foo.cpp"]; rel [".."; "src"; "bar.h"] ].

Definition PATH_OF_THIS_FILE (e : Env) : Path :=
  absolute e (parent (file_ e)).

Definition evaluate_relative_path (e : Env) (f : FS) (path : Path) : Path :=
  resolve e f (joinpath (PATH_OF_THIS_FILE e) path).

Definition UNCRUSTIFY_VERSION_TO_CHECK : list Byte.byte :=
  bytes "Uncrustify-0.72.0_f".

Definition import_module (e : Env) (f : FS) : Globals :=
  {| EXCLUDE_DIRECTORIES :=
       EXCLUDE_DIRECTORIES_listed
       ++ glob e f (rel [".."; "tests"]) (fun name => startswith name "build");
     SEARCH_PATH := evaluate_relative_path e f (rel [".."]);
     CONFIG_PATH := evaluate_relative_path e f (rel ["configs"; "uncrustify.cfg"]) |}.

Definition _execute_command (e : Env) (command : string) : M Z :=
  print ("> " +:+ command) ;;;
  match shlex_split command with
  | Some argv => popen_wait e argv
  | None => raise ValueError
  end.

Definition _is_file_excluded (e : Env) (g : Globals) (f : FS) (file : Path) : bool :=
  if existsb (fun exclude_directory =>
                startswith (as_posix file)
                  (as_posix (evaluate_relative_path e f exclude_directory)))
             (EXCLUDE_DIRECTORIES g)
  then true
  else if existsb (fun exclude_file =>
                     bool_decide (as_posix file
                                  = as_posix (evaluate_relative_path e f exclude_file)))
                  EXCLUDE_FILES
  then true
  else false.

(** The methods of the class that take a file and answer yes or no, by
    name: what [self.<name>] finds for such a call. *)
Definition file_predicates (e : Env) (g : Globals)
  : list (string * (FS -> Path -> bool)) :=
  [ ("_is_file_excluded", _is_file_excluded e g) ].

(** [self.<name>]: [AttributeError] when the class has no such method. *)
Definition getattr (e : Env) (g : Globals) (name : string)
  : M (FS -> Path -> bool) :=
  match List.find (fun '(n, _) => bool_decide (n = name)) (file_predicates e g) with
  | Some (_, method) => ret method
  | None => raise (AttributeError name)
  end.

Definition walk (e : Env) (g : Globals) (f : FS) : list Path :=
  let search_path := evaluate_relative_path e f (SEARCH_PATH g) in
  glob e f search_path (ends_with ".cpp")
  ++ glob e f search_path (ends_with ".c")
  ++ glob e f search_path (ends_with ".h").

Fixpoint collect (e : Env) (g : Globals) (entries files : list Path)
  : M (list Path) :=
  match entries with
  | [] => ret files
  | file :: entries' =>
      f <- get_fs ;;
      let file := resolve e f file in
      is_file_excluded <- getattr e g "is_file_excluded" ;;
      if negb (is_file_excluded f file)
      then collect e g entries' (files ++ [file])
      else collect e g entries' files
  end.

Definition _generate_list_of_files_to_format (e : Env) (g : Globals)
  : M (list Path) :=
  f <- get_fs ;;
  collect e g (walk e g f) [].

Definition _correct_uncrustify_version (e : Env) : M bool :=
  out <- check_output e ["uncrustify"; "--version"] ;;
  ret (bool_decide (strip [Byte.x0d; Byte.x0a] out = UNCRUSTIFY_VERSION_TO_CHECK)).

Definition check_args (check : bool) : string :=
  if check then "--check" else "--replace --no-backup --if-changed".

Definition temp_file_name : string := "uncrustify_temp.txt".

Definition manifest (files : list Path) : string :=
  fold_right (fun file k => as_posix file +:+ nl +:+ k) "" files.

Definition command (g : Globals) (check : bool) : string :=
  "uncrustify -c " +:+ as_posix (CONFIG_PATH g) +:+ " " +:+ check_args check
  +:+ " -F " +:+ temp_file_name.

Definition _format_cpp (e : Env) (g : Globals) (check : bool) : M unit :=
  ok <- _correct_uncrustify_version e ;;
  (if negb ok
   then print "WARNING: You are using the wrong uncrustify version. Please install b'Uncrustify-0.72.0_f'"
   else ret tt) ;;;
  files <- _generate_list_of_files_to_format e g ;;
  write_file e temp_file_name (manifest files) ;;;
  exit_code <- _execute_command e (command g check) ;;
  os_remove e temp_file_name ;;;
  if bool_decide (exit_code <> 0%Z)
  then print ("COMMAND FAILED (exit code: " +:+ pretty exit_code +:+ ")") ;;;
       exit exit_code
  else ret tt.

Definition arguments : list Argument :=
  [ mkArgument ["--check"; "-c"] "check" ].

(** [Formatter().run()] in a process that imported the module on the
    file system it starts from. *)
Definition run (e : Env) : M unit :=
  f <- get_fs ;;
  let g := import_module e f in
  args <- parse_args arguments (sys_argv e) ;;
  _format_cpp e g (bool_decide ("check" ∈ args)).

End Formatter.

(* ===================================================================== *)
(** ** The vocabulary of the properties                                   *)
(* ===================================================================== *)

(** The path the walk starts from, and the directory it reads there. *)
Definition search_path (e : Env) (g : Globals) (f : FS) : Path :=
  Format.evaluate_relative_path e f (SEARCH_PATH g).

Definition search_root (e : Env) (g : Globals) (f : FS) : list string :=
  parts (resolve e f (search_path e g f)).

(** A name with one of the three extensions. *)
Definition source_name (name : string) : bool :=
  ends_with ".cpp" name || ends_with ".c" name || ends_with ".h" name.

(** [rest] names an entry of the file system below [root] that has one of
    the extensions and that the recursive walk reaches. *)
Definition source_entry (f : FS) (root rest : list string) : bool :=
  bool_decide (is_Some (f !! (root ++ rest))) && bool_decide (rest <> [])
  && source_name (List.last rest "") && walkable f root rest.

(** The path under which the walk yields that entry, and its resolved
    path. *)
Definition yielded (e : Env) (g : Globals) (f : FS) (rest : list string) : Path :=
  mkPath (anchored (search_path e g f)) (parts (search_path e g f) ++ rest).

Definition resolved_entry (e : Env) (g : Globals) (f : FS) (rest : list string) : Path :=
  resolve e f (yielded e g f rest).

(** The candidate list as one expression: the resolved paths of the
    entries walked, the excluded ones dropped. *)
Definition candidates (e : Env) (g : Globals) (f : FS) : list Path :=
  filter (fun file => Format.is_file_excluded e g f file = false)
         (resolve e f <$> Format.walk e g f).

(** The entries of the working directory the scripts write. *)
Definition manifest_path (e : Env) : list string :=
  cwd e ++ [Format.temp_file_name].

Definition dump_path (e : Env) : list string :=
  cwd e ++ [strftime (now e)].

Definition version_argv : list string := ["uncrustify"; "--version"].

Definition warning_line : string :=
  "WARNING: You are using the wrong uncrustify version. Please install b'Uncrustify-0.72.0_f'".

Definition failure_notice (exit_code : Z) : string :=
  "COMMAND FAILED (exit code: " +:+ pretty exit_code +:+ ")".

(** The lines the version check adds to the output. *)
Definition version_lines (out : list Byte.byte) : list string :=
  if bool_decide (strip [Byte.x0d; Byte.x0a] out = Format.UNCRUSTIFY_VERSION_TO_CHECK)
  then [] else [warning_line].

(** How a run of [format_cpp] ends once the formatter [s2] was started on
    the file system [f2], with [lines] printed by then. *)
Definition formatter_ran (e : Env) (lines : list string) (f2 : FS) (s2 : Spawn)
  (o : outcome unit) (w' : World) : Prop :=
  match sp_result s2 with
  | LaunchError => o = Raise FileNotFoundError /\ fs w' = f2 /\ stdout w' = lines
  | Finished rc _ =>
      fs w' = delete (cwd e ++ [Format.temp_file_name]) f2
      /\ if bool_decide (rc <> 0%Z)
         then o = SysExit rc /\ stdout w' = lines ++ [failure_notice rc]
         else o = Ok tt /\ stdout w' = lines
  end.

(** The file system the formatter is started on: the manifest of the
    candidates written into [f]. *)
Definition with_manifest (e : Env) (g : Globals) (f : FS) : FS :=
  <[open_target e f Format.temp_file_name
      := File (Format.manifest (candidates e g f))]> f.

(** The file system after the first lines of [format_cpp]. *)
Definition with_dump (e : Env) (g : Globals) (f : FS) : FS :=
  <[open_target e f (strftime (now e)) := File (Format.exclusions_text g)]> f.

(** What a run of [format_cpp] comes to once it is past the version
    check, in terms of the record of processes [s1 :: rest] it adds. *)
Definition past_version (e : Env) (g : Globals) (check : bool) (w : World)
  (o : outcome unit) (w' : World) (s1 : Spawn) (rest : list Spawn) : Prop :=
  let f1 := with_dump e g (fs w) in
  let f2 := with_manifest e g f1 in
  s1 = mkSpawn version_argv f1 (run_process e version_argv f1)
  /\ match sp_result s1 with
     | LaunchError =>
         o = Raise FileNotFoundError /\ rest = [] /\ fs w' = f1 /\ stdout w' = stdout w
     | Finished rc1 out =>
         if bool_decide (rc1 = 0%Z)
         then
           let lines := stdout w ++ version_lines out in
           (exists x, o = Raise x /\ rest = [] /\ fs w' = f1 /\ stdout w' = lines)
           \/ (shlex_split (Format.command g check) = None
               /\ o = Raise ValueError /\ rest = [] /\ fs w' = f2
               /\ stdout w' = lines ++ ["> " +:+ Format.command g check])
           \/ (exists argv,
                 shlex_split (Format.command g check) = Some argv
                 /\ rest = [mkSpawn argv f2 (run_process e argv f2)]
                 /\ formatter_ran e (lines ++ ["> " +:+ Format.command g check]) f2
                      (mkSpawn argv f2 (run_process e argv f2)) o w')
         else
           o = Raise (CalledProcessError rc1) /\ rest = [] /\ fs w' = f1
           /\ stdout w' = stdout w
     end.

(** A lexer that has the tokens [em] behind it already. *)
Definition emitted_after (em : list string) (l : lexer) : lexer :=
  mkLexer (lstate l) (token l) (quoted l) (em ++ emitted l).

(** A string the shell lexer takes as one word as it stands: not empty,
    and free of blanks, quotes and backslashes. *)
Definition plain_char (c : ascii) : bool :=
  negb (is_whitespace c) && negb (is_quote c) && negb (is_escape c).

Definition plain (s : string) : Prop :=
  s <> "" /\ forallb plain_char (String.list_ascii_of_string s) = true.

(** The argument vector of the formatter for a configuration file. *)
Definition formatter_argv (cfg : string) (check : bool) : list string :=
  ["uncrustify"; "-c"; cfg]
  ++ (if check then ["--check"] else ["--replace"; "--no-backup"; "--if-changed"])
  ++ ["-F"; "uncrustify_temp.txt"].

(** The records of the two processes of a run of [format_cpp]: the
    version query, and the formatter on the manifest. *)
Definition version_spawn (e : Env) (g : Globals) (w : World) : Spawn :=
  let f1 := with_dump e g (fs w) in
  mkSpawn version_argv f1 (run_process e version_argv f1).

Definition formatter_spawn (e : Env) (g : Globals) (check : bool) (w : World)
  : Spawn :=
  let f2 := with_manifest e g (with_dump e g (fs w)) in
  let argv := formatter_argv (as_posix (CONFIG_PATH g)) check in
  mkSpawn argv f2 (run_process e argv f2).

(** The flag is on the command line, in its long or its short form. *)
Definition flag_given (e : Env) : bool :=
  bool_decide ("--check" ∈ sys_argv e \/ "-c" ∈ sys_argv e).

(* ===================================================================== *)
(** ** A project tree to run the scripts on                               *)
(* ===================================================================== *)

Module Sample.

Definition at_noon : datetime := mkDatetime 2024 3 9 12 0 5.

(** [uncrustify] is installed in the expected version; it accepts every
    file it is given. *)
Definition tool_ok (argv : list string) (_ : FS) : proc_result :=
  if bool_decide (argv = ["uncrustify"; "--version"])
  then Finished 0 (bytes "Uncrustify-0.72.0_f" ++ [Byte.x0a])
  else Finished 0 [].

(** The formatter finds fault with the files and leaves with 1. *)
Definition tool_rejects (argv : list string) (_ : FS) : proc_result :=
  if bool_decide (argv = ["uncrustify"; "--version"])
  then Finished 0 (bytes "Uncrustify-0.72.0_f" ++ [Byte.x0a])
  else Finished 1 [].

(** An older release is installed. *)
Definition tool_old (argv : list string) (_ : FS) : proc_result :=
  if bool_decide (argv = ["uncrustify"; "--version"])
  then Finished 0 (bytes "Uncrustify-0.69.0_f" ++ [Byte.x0a])
  else Finished 0 [].

Definition scripts : list string := ["proj"; "scripts"].

(** The script lies in [/proj/scripts] and is started there. *)
Definition env (argv : list string) (tool : list string -> FS -> proc_result) : Env :=
  mkEnv scripts (abs (scripts ++ ["format.py"])) argv at_noon tool.

Definition tree : FS :=
  list_to_map
    [ (["proj"], Dir);
      (["proj"; "scripts"], Dir);
      (["proj"; "scripts"; "format.py"], File "");
      (["proj"; "src"], Dir);
      (["proj"; "src"; "main.cpp"], File "int main() {}");
      (["proj"; "src"; "foo.cpp"], File "");
      (["proj"; "src"; "util.h"], File "");
      (["proj"; "srcfoo"], Dir);
      (["proj"; "srcfoo"; "a.c"], File "");
      (["proj"; "build"], Dir);
      (["proj"; "build"; "gen.c"], File "");
      (["proj"; "buildtools"], Dir);
      (["proj"; "buildtools"; "mk.c"], File "");
      (["proj"; "README.md"], File "") ].

(** The same tree with a link [src/alias.c] to [main.cpp] beside it. *)
Definition tree_alias : FS :=
  <[ ["proj"; "src"; "alias.c"] := Link (rel ["main.cpp"]) ]> tree.

(** A tree with the script and nothing to format. *)
Definition tree_bare : FS :=
  list_to_map
    [ (["proj"], Dir);
      (["proj"; "scripts"], Dir);
      (["proj"; "scripts"; "format.py"], File "");
      (["proj"; "README.md"], File "") ].

(** The sample tree with tests, one of them with a build directory. *)
Definition tree_tests : FS :=
  list_to_map
    [ (["proj"; "tests"], Dir);
      (["proj"; "tests"; "unit"], Dir);
      (["proj"; "tests"; "unit"; "t.cpp"], File "");
      (["proj"; "tests"; "unit"; "build_out"], Dir);
      (["proj"; "tests"; "unit"; "build_out"; "gen.c"], File "") ] ∪ tree.

(** The same script, started in the directory [dir]. *)
Definition env_in (dir : list string) (argv : list string)
  (tool : list string -> FS -> proc_result) : Env :=
  mkEnv dir (abs (scripts ++ ["format.py"])) argv at_noon tool.

Definition world (f : FS) : World := mkWorld f [] [].

End Sample.

(* ===================================================================== *)
(** ** Strings, paths and the recursive walk                              *)
(* ===================================================================== *)

Section Strings.

Lemma prefix_app (a b : string) :
  String.prefix a b = true <-> exists c, b = a +:+ c.
Proof.
  revert b. induction a as [|x a IH]; intros b; simpl.
  - destruct b; split; eauto.
  - destruct b as [|y b]; simpl.
    + split; [discriminate | intros [c Hc]; discriminate].
    + destruct (Ascii.ascii_dec x y) as [->|Hne].
      * rewrite IH. split; intros [c Hc]; exists c.
        -- rewrite Hc. reflexivity.
        -- change (String y b = String y (a +:+ c)) in Hc. congruence.
      * split; [discriminate | intros [c Hc]].
        change (String y b = String x (a +:+ c)) in Hc. congruence.
Qed.

Lemma starts_with_chars_app (pre s : list ascii) :
  starts_with_chars pre s = true <-> exists k, s = pre ++ k.
Proof.
  revert s. induction pre as [|a pre IH]; intros s; simpl.
  - split; eauto.
  - destruct s as [|b s].
    + split; [discriminate | intros [k Hk]; discriminate].
    + rewrite andb_true_iff, bool_decide_eq_true, IH.
      split.
      * intros [-> [k ->]]. eauto.
      * intros [k Hk]. simplify_eq. eauto.
Qed.

(** No name matches two of the three patterns. *)
Lemma ends_with_cpp_c name : ends_with ".cpp" name = true -> ends_with ".c" name = false.
Proof.
  unfold ends_with. simpl.
  destruct (rev (String.list_ascii_of_string name)) as [|a l]; [done|].
  simpl. rewrite andb_true_iff, bool_decide_eq_true. intros [<- _]. done.
Qed.

Lemma ends_with_cpp_h name : ends_with ".cpp" name = true -> ends_with ".h" name = false.
Proof.
  unfold ends_with. simpl.
  destruct (rev (String.list_ascii_of_string name)) as [|a l]; [done|].
  simpl. rewrite andb_true_iff, bool_decide_eq_true. intros [<- _]. done.
Qed.

Lemma ends_with_c_h name : ends_with ".c" name = true -> ends_with ".h" name = false.
Proof.
  unfold ends_with. simpl.
  destruct (rev (String.list_ascii_of_string name)) as [|a l]; [done|].
  simpl. rewrite andb_true_iff, bool_decide_eq_true. intros [<- _]. done.
Qed.

End Strings.

Section Glob.

Lemma strip_base_Some base p rest :
  strip_base base p = Some rest <-> p = base ++ rest.
Proof.
  revert p. induction base as [|b base IH]; intros p; simpl.
  - split; congruence.
  - destruct p as [|x p]; [split; discriminate|].
    case_bool_decide as Hb.
    + subst. rewrite IH. split; congruence.
    + split; [discriminate | congruence].
Qed.

(** What the recursive pattern yields: the entries of the file system
    below the directory whose name matches and which the walk reaches. *)
Lemma elem_of_glob_under (f : FS) base m rest :
  rest ∈ glob_under f base m <->
  is_Some (f !! (base ++ rest)) /\ rest <> [] /\ m (List.last rest "") = true
  /\ walkable f base rest = true.
Proof.
  unfold glob_under. rewrite list_elem_of_omap. split.
  - intros [[p n] [Hin Hy]]. apply elem_of_map_to_list in Hin.
    destruct (strip_base base p) as [r|] eqn:Hs; [|done].
    apply strip_base_Some in Hs. subst p.
    destruct (bool_decide (r <> []) && m (List.last r "") && walkable f base r) eqn:Hc; [|done].
    simplify_eq. rewrite !andb_true_iff, bool_decide_eq_true in Hc.
    destruct Hc as [[Hne Hm] Hw]. eauto using elem_of_dom_2, mk_is_Some.
  - intros ([n Hn] & Hne & Hm & Hw). exists (base ++ rest, n). split.
    + by apply elem_of_map_to_list.
    + assert (strip_base base (base ++ rest) = Some rest) as -> by by apply strip_base_Some.
      rewrite Hm, Hw. by rewrite bool_decide_eq_true_2.
Qed.

Lemma NoDup_glob_under (f : FS) base m : NoDup (glob_under f base m).
Proof.
  unfold glob_under.
  pose proof (NoDup_fst_map_to_list f) as Hnd.
  induction (map_to_list f) as [|[p n] l IH]; simpl; [constructor|].
  inversion Hnd as [|? ? Hp Hl]; subst.
  destruct (strip_base base p) as [r|] eqn:Hs; [|by apply IH].
  destruct (bool_decide (r <> []) && m (List.last r "") && walkable f base r); [|by apply IH].
  simpl. constructor; [|by apply IH].
  rewrite list_elem_of_omap. intros [[q n'] [Hin Hy]].
  destruct (strip_base base q) as [r'|] eqn:Hs'; [|done].
  destruct (bool_decide (r' <> []) && m (List.last r' "") && walkable f base r'); [|done].
  simplify_eq. apply strip_base_Some in Hs, Hs'. subst.
  apply Hp. apply list_elem_of_fmap. by exists (base ++ r, n').
Qed.

End Glob.

(* ===================================================================== *)
(** ** Runs of format.py                                                  *)
(* ===================================================================== *)

Section Runs.

Context (e : Env).

Lemma bind_ok {A B} (m : M A) (k : A -> M B) w a w1 :
  m w = (Ok a, w1) -> bind m k w = k a w1.
Proof. unfold bind. by intros ->. Qed.

Lemma bind_raise {A B} (m : M A) (k : A -> M B) w x w1 :
  m w = (Raise x, w1) -> bind m k w = (Raise x, w1).
Proof. unfold bind. by intros ->. Qed.

(** [open] either fails and leaves the world as it was, or puts the
    file where the name leads. *)
Lemma write_file_cases name content w :
  (exists x, write_file e name content w = (Raise x, w))
  \/ write_file e name content w
     = (Ok tt, mkWorld (<[open_target e (fs w) name := File content]> (fs w))
                       (stdout w) (spawned w)).
Proof.
  unfold write_file, bind, get_fs, set_fs, raise.
  destruct (lookup_node (fs w) (open_target e (fs w) name)) as [[| |]|];
    try (left; eexists; reflexivity);
    destruct (lookup_node (fs w) (removelast (open_target e (fs w) name))) as [[| |]|];
    try (left; eexists; reflexivity); by right.
Qed.

(** A name other than [..] leads to the entry of that name in the
    working directory, unless that entry is a link. *)
Lemma open_target_entry (f : FS) name :
  name <> ".." ->
  open_target e f name = cwd e ++ [name]
  \/ exists t, f !! (cwd e ++ [name]) = Some (Link t).
Proof.
  intros Hn. unfold open_target, MAXSYMLINKS. simpl.
  rewrite bool_decide_eq_false_2 by done.
  destruct (f !! (cwd e ++ [name])) as [[| |t]|]; eauto.
Qed.

(** Once a file was opened for writing under a name, the entry of that
    name is a file or a link. *)
Lemma written_entry (f : FS) name content :
  name <> ".." ->
  exists n, <[open_target e f name := File content]> f !! (cwd e ++ [name]) = Some n
            /\ n <> Dir.
Proof.
  intros Hn. destruct (open_target_entry f name Hn) as [->|[t Ht]].
  - exists (File content). by rewrite lookup_insert_eq.
  - destruct (decide (open_target e f name = cwd e ++ [name])) as [->|Hne].
    + exists (File content). by rewrite lookup_insert_eq.
    + exists (Link t). by rewrite lookup_insert_ne.
Qed.

Lemma os_remove_entry (name : string) (f : FS) out sp n :
  f !! (cwd e ++ [name]) = Some n -> n <> Dir ->
  os_remove e name (mkWorld f out sp)
  = (Ok tt, mkWorld (delete (cwd e ++ [name]) f) out sp).
Proof.
  intros Hn Hd. unfold os_remove, bind, get_fs, set_fs. simpl. rewrite Hn.
  by destruct n.
Qed.

(** The loop of [generate_list_of_files_to_format] appends the resolved
    paths that are not excluded and leaves the world alone. *)
Lemma collect_candidates g entries files w :
  Format.collect e g entries files w
  = (Ok (files ++ filter (fun file => Format.is_file_excluded e g (fs w) file = false)
                         (resolve e (fs w) <$> entries)), w).
Proof.
  revert files. induction entries as [|p entries IH]; intros files; simpl.
  - by rewrite app_nil_r.
  - unfold bind, get_fs. simpl. rewrite filter_cons.
    case_decide as Hx.
    + rewrite Hx. simpl. rewrite IH. by rewrite <- app_assoc.
    + apply not_false_is_true in Hx. rewrite Hx. simpl. apply IH.
Qed.

Lemma generate_list_candidates g w :
  Format.generate_list_of_files_to_format e g w = (Ok (candidates e g (fs w)), w).
Proof.
  unfold Format.generate_list_of_files_to_format, bind, get_fs. simpl.
  by rewrite collect_candidates.
Qed.

(** A run whose record of processes cannot be the one observed. *)
Ltac off_record H :=
  exfalso; simpl in H; apply (f_equal List.length) in H;
  repeat (rewrite ?length_app in H; simpl in H); lia.

(** The record of a run that is known step by step. *)
Ltac record_is :=
  eexists _, _; split; [simpl; rewrite <- ?app_assoc; reflexivity|];
  split; [reflexivity|]; simpl.

(** The runs of [format_cpp] whose first lines wrote their file.  The
    first process is [uncrustify --version].  When that answers with exit
    code 0 the run goes on, warning or not: the manifest cannot be opened,
    or the command line cannot be split, or the formatter is started on
    the manifest of the candidates. *)
Lemma format_cpp_written g check w o w' w1 :
  Format.format_cpp e g check w = (o, w') ->
  write_file e (strftime (now e)) (Format.exclusions_text g) w = (Ok tt, w1) ->
  exists s1 rest,
    spawned w' = spawned w ++ s1 :: rest /\ past_version e g check w o w' s1 rest.
Proof.
  intros Hrun Hw1. unfold past_version.
  set (f1 := with_dump e g (fs w)). set (f2 := with_manifest e g f1).
  unfold Format.format_cpp in Hrun.
  destruct (write_file_cases (strftime (now e)) (Format.exclusions_text g) w)
    as [[x Hx]|Hdump]; [congruence|]. clear Hw1.
  rewrite (bind_ok _ _ _ _ _ Hdump) in Hrun. fold (with_dump e g (fs w)) in Hrun.
  fold f1 in Hrun.
  unfold Format.correct_uncrustify_version, check_output, spawn in Hrun.
  unfold bind at 1 2 3 in Hrun. simpl in Hrun. fold version_argv in Hrun.
  destruct (run_process e version_argv f1) as [|rc1 out] eqn:Hv.
  { unfold raise in Hrun. simplify_eq. record_is. done. }
  case_bool_decide as Hrc1; [subst rc1|].
  2: { unfold raise in Hrun. simplify_eq. record_is.
       rewrite bool_decide_eq_false_2 by done. done. }
  unfold ret in Hrun.
  set (w2 := mkWorld f1 (stdout w ++ version_lines out)
                     (spawned w ++ [mkSpawn version_argv f1 (Finished 0 out)])).
  assert (Hrun2 :
    (files <- Format.generate_list_of_files_to_format e g ;;
     write_file e Format.temp_file_name (Format.manifest files) ;;;
     exit_code <- Format.execute_command e (Format.command g check) ;;
     os_remove e Format.temp_file_name ;;;
     if bool_decide (exit_code <> 0%Z)
     then print ("COMMAND FAILED (exit code: " +:+ pretty exit_code +:+ ")") ;;;
          exit exit_code
     else ret tt) w2 = (o, w')).
  { rewrite <- Hrun. unfold w2, version_lines.
    destruct (bool_decide (strip [Byte.x0d; Byte.x0a] out
                           = Format.UNCRUSTIFY_VERSION_TO_CHECK)); simpl.
    - unfold bind at 3. unfold ret. by rewrite app_nil_r.
    - unfold bind at 3. unfold print. reflexivity. }
  clear Hrun. rename Hrun2 into Hrun.
  rewrite (bind_ok _ _ _ _ _ (generate_list_candidates g w2)) in Hrun.
  change (fs w2) with f1 in Hrun.
  destruct (write_file_cases Format.temp_file_name (Format.manifest (candidates e g f1)) w2)
    as [[x Hx]|Hman].
  { rewrite (bind_raise _ _ _ _ _ Hx) in Hrun. simplify_eq. record_is.
    left. by exists x. }
  rewrite (bind_ok _ _ _ _ _ Hman) in Hrun.
  change (fs w2) with f1 in Hrun. fold (with_manifest e g f1) in Hrun. fold f2 in Hrun.
  unfold Format.execute_command in Hrun.
  unfold bind at 1 2, print in Hrun. simpl in Hrun.
  destruct (shlex_split (Format.command g check)) as [argv|] eqn:Hsplit;
    [|unfold raise in Hrun; simplify_eq; record_is; right; left; done].
  unfold popen_wait, spawn, bind at 1 in Hrun. simpl in Hrun.
  assert (Hran : formatter_ran e ((stdout w ++ version_lines out)
                                  ++ ["> " +:+ Format.command g check]) f2
                   (mkSpawn argv f2 (run_process e argv f2)) o w'
                 /\ spawned w' = (spawned w ++ [mkSpawn version_argv f1 (Finished 0 out)])
                                 ++ [mkSpawn argv f2 (run_process e argv f2)]).
  { unfold formatter_ran. simpl.
    destruct (run_process e argv f2) as [|rc out2] eqn:Hr.
    - unfold raise in Hrun. by simplify_eq.
    - unfold ret in Hrun.
      destruct (written_entry f1 Format.temp_file_name
                  (Format.manifest (candidates e g f1))) as (n & Hn & Hd); [done|].
      fold (with_manifest e g f1) in Hn. fold f2 in Hn.
      rewrite (bind_ok _ _ _ _ _ (os_remove_entry Format.temp_file_name f2 _ _ n Hn Hd)) in Hrun.
      case_bool_decide as Hrc.
      + unfold bind, print, exit in Hrun. simpl in Hrun. by simplify_eq.
      + unfold ret in Hrun. by simplify_eq. }
  destruct Hran as [Hran Hsp]. rewrite Hsp. record_is.
  right; right. by exists argv.
Qed.

(** The same, for a run known by the processes it added. *)
Lemma format_cpp_started g check w o w' s1 rest :
  Format.format_cpp e g check w = (o, w') ->
  spawned w' = spawned w ++ s1 :: rest ->
  past_version e g check w o w' s1 rest.
Proof.
  intros Hrun Hrec.
  destruct (write_file_cases (strftime (now e)) (Format.exclusions_text g) w)
    as [[x Hx]|Hdump].
  { unfold Format.format_cpp in Hrun.
    rewrite (bind_raise _ _ _ _ _ Hx) in Hrun. simplify_eq. off_record Hrec. }
  destruct (format_cpp_written g check w o w' _ Hrun Hdump) as (s1' & rest' & Hrec' & Hpast).
  rewrite Hrec in Hrec'. apply app_inv_head in Hrec'. by simplify_eq.
Qed.

(** The runs of [format_cpp] that spawn two processes: the second one is
    the formatter. *)
Lemma format_cpp_invoked g check w o w' s1 s2 :
  Format.format_cpp e g check w = (o, w') ->
  spawned w' = spawned w ++ [s1; s2] ->
  let f1 := with_dump e g (fs w) in
  let f2 := with_manifest e g f1 in
  exists out argv,
    s1 = mkSpawn version_argv f1 (Finished 0 out)
    /\ shlex_split (Format.command g check) = Some argv
    /\ s2 = mkSpawn argv f2 (run_process e argv f2)
    /\ formatter_ran e (stdout w ++ version_lines out
                        ++ ["> " +:+ Format.command g check]) f2 s2 o w'.
Proof.
  intros Hrun Hrec f1 f2.
  destruct (format_cpp_started g check w o w' s1 [s2] Hrun Hrec) as [Hs1 Hcases].
  fold f1 in Hs1, Hcases. fold f2 in Hcases.
  destruct (sp_result s1) as [|rc1 out] eqn:Hr1.
  { by destruct Hcases as (_ & ? & _). }
  case_bool_decide as Hrc1; [subst rc1|by destruct Hcases as (_ & ? & _)].
  simpl in Hcases.
  destruct Hcases as [(x & _ & ? & _)|[(_ & _ & ? & _)|(argv & Hsplit & Hrest & Hran)]];
    [done|done|].
  injection Hrest as ->. exists out, argv.
  rewrite Hs1 in Hr1. simpl in Hr1. rewrite Hr1 in Hs1.
  rewrite app_assoc. done.
Qed.

End Runs.

(* ===================================================================== *)
(** ** The exclusion predicate                                            *)
(* ===================================================================== *)

Section Exclusion.

Context (e : Env) (g : Globals) (f : FS).

Lemma excluded_by_directory (file : Path) :
  existsb (fun d => startswith (as_posix file)
                      (as_posix (Format.evaluate_relative_path e f d)))
          (EXCLUDE_DIRECTORIES g) = true
  <-> exists d, d ∈ EXCLUDE_DIRECTORIES g
        /\ exists rest, as_posix file
                        = as_posix (Format.evaluate_relative_path e f d) +:+ rest.
Proof.
  rewrite existsb_exists. unfold startswith.
  split; intros (d & Hd & Hp); exists d.
  - apply list_elem_of_In in Hd. split; [done|]. by apply prefix_app.
  - split; [by apply list_elem_of_In|]. by apply prefix_app.
Qed.

Lemma excluded_by_file (file : Path) :
  existsb (fun x => bool_decide (as_posix file
                                 = as_posix (Format.evaluate_relative_path e f x)))
          Format.EXCLUDE_FILES = true
  <-> exists x, x ∈ Format.EXCLUDE_FILES
        /\ as_posix file = as_posix (Format.evaluate_relative_path e f x).
Proof.
  rewrite existsb_exists.
  split; intros (x & Hx & Hp); exists x.
  - apply list_elem_of_In in Hx. split; [done|]. by apply bool_decide_eq_true in Hp.
  - split; [by apply list_elem_of_In|]. by apply bool_decide_eq_true.
Qed.

Lemma is_file_excluded_iff (file : Path) :
  Format.is_file_excluded e g f file = true
  <-> (exists d, d ∈ EXCLUDE_DIRECTORIES g
         /\ exists rest, as_posix file
                         = as_posix (Format.evaluate_relative_path e f d) +:+ rest)
      \/ (exists x, x ∈ Format.EXCLUDE_FILES
            /\ as_posix file = as_posix (Format.evaluate_relative_path e f x)).
Proof.
  rewrite <- excluded_by_directory, <- excluded_by_file.
  unfold Format.is_file_excluded.
  destruct (existsb _ (EXCLUDE_DIRECTORIES g)); [tauto|].
  destruct (existsb _ Format.EXCLUDE_FILES); [tauto|].
  split; [done | intros [?|?]; done].
Qed.

(** The class-wrapped variant defines the same predicate. *)
Lemma _is_file_excluded_same (file : Path) :
  Formatter._is_file_excluded e g f file = Format.is_file_excluded e g f file.
Proof. reflexivity. Qed.

End Exclusion.

(** C3. The exclusion predicate of both implementations holds of a
    resolved file exactly when the posix string of its path starts with the
    posix string of the resolved path of an excluded directory, or equals
    the posix string of the resolved path of an excluded file.  The prefix
    is one of strings, not of path components: with an entry [../src] the
    file [/proj/srcfoo/a.c] of the sibling directory [srcfoo] is excluded,
    and the listed entry [../build] excludes [/proj/buildtools/mk.c]. *)
Theorem C3_exclusion_predicate :
  (forall (e : Env) (g : Globals) (f : FS) (file : Path),
     (Format.is_file_excluded e g f file = true
      <-> (exists d, d ∈ EXCLUDE_DIRECTORIES g
             /\ exists rest, as_posix file
                             = as_posix (Format.evaluate_relative_path e f d) +:+ rest)
          \/ (exists x, x ∈ Format.EXCLUDE_FILES
                /\ as_posix file = as_posix (Format.evaluate_relative_path e f x)))
     /\ (Formatter._is_file_excluded e g f file = true
         <-> (exists d, d ∈ EXCLUDE_DIRECTORIES g
                /\ exists rest, as_posix file
                                = as_posix (Formatter.evaluate_relative_path e f d) +:+ rest)
             \/ (exists x, x ∈ Formatter.EXCLUDE_FILES
                   /\ as_posix file = as_posix (Formatter.evaluate_relative_path e f x))))
  /\ (let e := Sample.env [] Sample.tool_ok in
      Format.is_file_excluded e (mkGlobals [rel [".."; "src"]] (abs ["proj"]) (abs []))
        Sample.tree (abs ["proj"; "srcfoo"; "a.c"]) = true
      /\ Format.is_file_excluded e (Format.import_module e Sample.tree)
           Sample.tree (abs ["proj"; "buildtools"; "mk.c"]) = true
      /\ Format.is_file_excluded e (Format.import_module e Sample.tree)
           Sample.tree (abs ["proj"; "srcfoo"; "a.c"]) = false).
Proof.
  split.
  - intros e g f file. split.
    + apply is_file_excluded_iff.
    + rewrite _is_file_excluded_same. apply is_file_excluded_iff.
  - by vm_compute.
Qed.

(* ===================================================================== *)
(** ** The candidate list                                                 *)
(* ===================================================================== *)

Section Counting.

Context {A B : Type} (decB : forall x y : B, {x = y} + {x <> y}).

Lemma count_occ_filter (P : B -> Prop) `{forall x, Decision (P x)} (l : list B) (x : B) :
  count_occ decB (filter P l) x = if decide (P x) then count_occ decB l x else 0.
Proof.
  induction l as [|y l IH]; simpl.
  - by destruct (decide (P x)).
  - rewrite filter_cons. destruct (decide (P y)) as [Hy|Hy]; simpl.
    + destruct (decB y x) as [->|Hne]; rewrite IH; by destruct (decide (P x)).
    + rewrite IH. destruct (decide (P x)) as [Hx|Hx]; [|done].
      destruct (decB y x) as [->|Hne]; [contradiction|done].
Qed.

Lemma count_occ_fmap_absent (R : A -> B) (l : list A) (r : B) :
  (forall q, q ∈ l -> R q <> r) -> count_occ decB (R <$> l) r = 0.
Proof.
  induction l as [|y l IH]; intros Hq; simpl; [done|].
  destruct (decB (R y) r) as [Hy|Hy].
  - exfalso. eapply Hq; [left|done].
  - apply IH. intros q Hin. apply Hq. by right.
Qed.

(** An element whose image no other element of a duplicate-free list
    shares has its image once in the mapped list. *)
Lemma count_occ_fmap_unique (R : A -> B) (l : list A) (p : A) :
  NoDup l -> p ∈ l -> (forall q, q ∈ l -> R q = R p -> q = p) ->
  count_occ decB (R <$> l) (R p) = 1.
Proof.
  induction l as [|y l IH]; intros Hnd Hin Huniq.
  - by apply not_elem_of_nil in Hin.
  - apply NoDup_cons in Hnd as [Hy Hnd]. simpl.
    destruct (decB (R y) (R p)) as [Heq|Hne].
    + assert (y = p) as -> by (apply Huniq; [left|done]).
      f_equal. apply count_occ_fmap_absent. intros q Hq Hr.
      apply Hy. rewrite <- (Huniq q); [done|by right|done].
    + apply IH; [done| |].
      * apply elem_of_cons in Hin as [->|Hin]; [done|done].
      * intros q Hq. apply Huniq. by right.
Qed.

End Counting.

Section Walk.

Context (e : Env) (g : Globals) (f : FS).

Lemma source_entry_true root rest :
  source_entry f root rest = true
  <-> is_Some (f !! (root ++ rest)) /\ rest <> []
      /\ source_name (List.last rest "") = true /\ walkable f root rest = true.
Proof.
  unfold source_entry. rewrite !andb_true_iff, !bool_decide_eq_true. tauto.
Qed.

Lemma elem_of_glob (m : string -> bool) (p : Path) :
  p ∈ glob e f (search_path e g f) m
  <-> exists rest, p = yielded e g f rest
        /\ rest ∈ glob_under f (search_root e g f) m.
Proof. unfold glob. rewrite list_elem_of_fmap. reflexivity. Qed.

#[local] Instance yielded_inj : Inj (=) (=) (yielded e g f).
Proof.
  intros r1 r2 Heq. unfold yielded in Heq.
  injection Heq as Heq. by apply app_inv_head in Heq.
Qed.

(** The walk yields the entries below the search root that have one of
    the three extensions, and no other path. *)
Lemma elem_of_walk (p : Path) :
  p ∈ Format.walk e g f
  <-> exists rest, p = yielded e g f rest
        /\ source_entry f (search_root e g f) rest = true.
Proof.
  unfold Format.walk. fold (search_path e g f).
  rewrite !elem_of_app, !elem_of_glob. split.
  - intros [(rest & -> & Hr)|[(rest & -> & Hr)|(rest & -> & Hr)]];
      exists rest; (split; [done|]);
      apply elem_of_glob_under in Hr as (Hs & Hne & Hm & Hw);
      apply source_entry_true; unfold source_name; rewrite Hm;
      repeat split; try done; by rewrite ?orb_true_r.
  - intros (rest & -> & Hs).
    apply source_entry_true in Hs as (Hs & Hne & Hm & Hw).
    unfold source_name in Hm. rewrite !orb_true_iff in Hm.
    destruct Hm as [[Hm|Hm]|Hm]; [left|right; left|right; right];
      exists rest; (split; [done|]); by apply elem_of_glob_under.
Qed.

Lemma NoDup_glob (m : string -> bool) : NoDup (glob e f (search_path e g f) m).
Proof.
  unfold glob. apply (NoDup_fmap_2 (yielded e g f)), NoDup_glob_under.
Qed.

Lemma glob_disjoint (m1 m2 : string -> bool) (p : Path) :
  (forall name, m1 name = true -> m2 name = false) ->
  p ∈ glob e f (search_path e g f) m1 -> p ∉ glob e f (search_path e g f) m2.
Proof.
  intros Hdis (r1 & -> & H1)%elem_of_glob (r2 & Heq & H2)%elem_of_glob.
  apply (inj _) in Heq. subst r2.
  apply elem_of_glob_under in H1 as (_ & _ & H1 & _).
  apply elem_of_glob_under in H2 as (_ & _ & H2 & _).
  apply Hdis in H1. congruence.
Qed.

(** No entry is yielded twice: each pattern lists an entry once, and no
    name matches two patterns. *)
Lemma NoDup_walk : NoDup (Format.walk e g f).
Proof.
  unfold Format.walk. fold (search_path e g f).
  apply NoDup_app. split; [apply NoDup_glob|]. split.
  - intros p Hp [Hc|Hh]%elem_of_app.
    + by apply (glob_disjoint _ _ p ends_with_cpp_c) in Hp.
    + by apply (glob_disjoint _ _ p ends_with_cpp_h) in Hp.
  - apply NoDup_app. split; [apply NoDup_glob|]. split; [|apply NoDup_glob].
    intros p Hp Hh. by apply (glob_disjoint _ _ p ends_with_c_h) in Hp.
Qed.

Lemma elem_of_candidates (file : Path) :
  file ∈ candidates e g f
  <-> Format.is_file_excluded e g f file = false
      /\ exists rest, file = resolved_entry e g f rest
           /\ source_entry f (search_root e g f) rest = true.
Proof.
  unfold candidates. rewrite list_elem_of_filter, list_elem_of_fmap.
  split.
  - intros (Hx & p & -> & Hp). split; [done|].
    apply elem_of_walk in Hp as (rest & -> & Hs). by exists rest.
  - intros (Hx & rest & -> & Hs). split; [done|].
    exists (yielded e g f rest). split; [done|]. apply elem_of_walk. by exists rest.
Qed.

Lemma candidates_once (rest : list string) :
  source_entry f (search_root e g f) rest = true ->
  Format.is_file_excluded e g f (resolved_entry e g f rest) = false ->
  (forall rest', source_entry f (search_root e g f) rest' = true ->
                 resolved_entry e g f rest' = resolved_entry e g f rest ->
                 rest' = rest) ->
  count_occ Path_eq_dec (candidates e g f) (resolved_entry e g f rest) = 1.
Proof.
  intros Hs Hx Huniq. unfold candidates.
  rewrite count_occ_filter, decide_True by done.
  unfold resolved_entry.
  apply (count_occ_fmap_unique Path_eq_dec (resolve e f)).
  - apply NoDup_walk.
  - apply elem_of_walk. by exists rest.
  - intros q (rest' & -> & Hs')%elem_of_walk Hr. f_equal. by apply Huniq.
Qed.

End Walk.




(** A closed statement that can be decided is proved by evaluating the
    decision. *)
Ltac by_evaluation :=
  match goal with
  | |- ?P => apply (bool_decide_eq_true_1 P); vm_compute; reflexivity
  end.

(** Two closed paths that differ are told apart by evaluation. *)
Ltac differ H :=
  match type of H with
  | ?a = ?b =>
      exfalso; revert H; apply (bool_decide_eq_false_1 (a = b));
      vm_compute; reflexivity
  end.


(* ===================================================================== *)
(** ** Runs of formatter.py                                               *)
(* ===================================================================== *)

Section FormatterRuns.

Context (e : Env).

(** The class has no method [is_file_excluded]. *)
Lemma getattr_is_file_excluded g w :
  Formatter.getattr e g "is_file_excluded" w
  = (Raise (AttributeError "is_file_excluded"), w).
Proof. reflexivity. Qed.

(** The loop fails on its first entry. *)
Lemma collect_raises g entries files w :
  entries <> [] ->
  Formatter.collect e g entries files w
  = (Raise (AttributeError "is_file_excluded"), w).
Proof. destruct entries as [|p entries]; [done|]. reflexivity. Qed.

Lemma collect_nothing g files w :
  Formatter.collect e g [] files w = (Ok files, w).
Proof. reflexivity. Qed.

Lemma formatter_walk (g : Globals) (f : FS) : Formatter.walk e g f = Format.walk e g f.
Proof. reflexivity. Qed.

Lemma walk_nonempty (g : Globals) (f : FS) (rest : list string) :
  source_entry f (search_root e g f) rest = true -> Format.walk e g f <> [].
Proof.
  intros Hs Hnil.
  assert (Hin : yielded e g f rest ∈ Format.walk e g f)
    by (apply elem_of_walk; eauto).
  rewrite Hnil in Hin. by apply not_elem_of_nil in Hin.
Qed.

Lemma _generate_list_raises g w rest :
  source_entry (fs w) (search_root e g (fs w)) rest = true ->
  Formatter._generate_list_of_files_to_format e g w
  = (Raise (AttributeError "is_file_excluded"), w).
Proof.
  intros Hs. unfold Formatter._generate_list_of_files_to_format, bind, get_fs.
  simpl. apply collect_raises. rewrite formatter_walk. by eapply walk_nonempty.
Qed.

(** Reading the command line touches neither the file system nor the
    record of processes. *)
Lemma parse_args_frame arguments argv w o w' :
  parse_args arguments argv w = (o, w') ->
  fs w' = fs w /\ spawned w' = spawned w.
Proof.
  revert o w'. induction argv as [|a argv IH]; intros o w' Hp; simpl in Hp.
  - unfold ret in Hp. by simplify_eq.
  - case_bool_decide.
    + unfold bind, print, exit in Hp. by simplify_eq.
    + destruct (List.find _ arguments).
      * unfold bind in Hp.
        destruct (parse_args arguments argv w) as [[ns|x|c] w1] eqn:Hrec;
          unfold ret in Hp; simplify_eq; by eapply IH.
      * unfold bind, print, exit in Hp. by simplify_eq.
Qed.

End FormatterRuns.



(* ===================================================================== *)
(** ** What a run leaves on disk                                          *)
(* ===================================================================== *)

Section Persistence.

Context (e : Env).

(** The file named after the time of the run is not the manifest. *)
Lemma strftime_not_manifest (t : datetime) : strftime t <> Format.temp_file_name.
Proof.
  intros H. apply (f_equal String.length) in H.
  unfold strftime, pad4, pad2 in H. simpl in H. discriminate.
Qed.

Lemma strftime_not_parent (t : datetime) : strftime t <> "..".
Proof.
  intros H. apply (f_equal String.length) in H.
  unfold strftime, pad4, pad2 in H. simpl in H. discriminate.
Qed.

Lemma dump_not_manifest : dump_path e <> manifest_path e.
Proof.
  unfold dump_path, manifest_path. intros H. apply app_inv_head in H.
  apply (f_equal (fun l => List.hd "" l)) in H.
  exact (strftime_not_manifest _ H).
Qed.

(** In an existing working directory a name that is free can be opened
    for writing, and the file is put under that name. *)
Lemma write_file_fresh (name content : string) w :
  name <> ".." ->
  lookup_node (fs w) (cwd e) = Some Dir ->
  fs w !! (cwd e ++ [name]) = None ->
  open_target e (fs w) name = cwd e ++ [name]
  /\ write_file e name content w
     = (Ok tt, mkWorld (<[cwd e ++ [name] := File content]> (fs w))
                       (stdout w) (spawned w)).
Proof.
  intros Hn Hcwd Hfree.
  destruct (open_target_entry e (fs w) name Hn) as [Ht|[t Ht]]; [|congruence].
  split; [done|].
  unfold write_file, bind, get_fs, set_fs. simpl. rewrite Ht.
  assert (lookup_node (fs w) (cwd e ++ [name]) = None) as ->.
  { unfold lookup_node. destruct (cwd e ++ [name]) eqn:Hc; [|done].
    by apply app_eq_nil in Hc as [_ ?]. }
  by rewrite removelast_last, Hcwd.
Qed.

(** Writing the manifest and removing it leave a file of another name
    where it is. *)
Lemma kept_with_manifest (g : Globals) (f : FS) (p : list string) :
  (exists c, f !! p = Some (File c)) ->
  exists c, with_manifest e g f !! p = Some (File c).
Proof.
  intros [c Hc]. unfold with_manifest.
  destruct (decide (open_target e f Format.temp_file_name = p)) as [->|Hne].
  - eexists. apply lookup_insert_eq.
  - exists c. by rewrite lookup_insert_ne.
Qed.

Lemma kept_without_manifest (f : FS) (p : list string) :
  p <> manifest_path e ->
  (exists c, f !! p = Some (File c)) ->
  exists c, delete (manifest_path e) f !! p = Some (File c).
Proof. intros Hne [c Hc]. exists c. by rewrite lookup_delete_ne. Qed.

(** The file written by the first lines of [format_cpp] is there when the
    run ends, however it ends. *)
Lemma dump_kept g check w o w' :
  Format.format_cpp e g check w = (o, w') ->
  lookup_node (fs w) (cwd e) = Some Dir ->
  fs w !! dump_path e = None ->
  exists c, fs w' !! dump_path e = Some (File c).
Proof.
  intros Hrun Hcwd Hfree.
  destruct (write_file_fresh (strftime (now e)) (Format.exclusions_text g) w
              (strftime_not_parent _) Hcwd Hfree) as [Ht Hdump].
  destruct (format_cpp_written e g check w o w' _ Hrun Hdump)
    as (s1 & rest & _ & _ & Hpast).
  assert (Hf1 : exists c, with_dump e g (fs w) !! dump_path e = Some (File c)).
  { unfold with_dump. rewrite Ht. eexists. apply lookup_insert_eq. }
  pose proof (kept_with_manifest g _ _ Hf1) as Hf2.
  pose proof (kept_without_manifest _ _ dump_not_manifest Hf2) as Hf3.
  destruct (sp_result s1) as [|rc1 out].
  { destruct Hpast as (_ & _ & -> & _). exact Hf1. }
  destruct (bool_decide (rc1 = 0%Z)).
  - destruct Hpast as [(x & _ & _ & -> & _)|[(_ & _ & _ & -> & _)|(argv & _ & _ & Hran)]];
      [exact Hf1|exact Hf2|].
    unfold formatter_ran in Hran. simpl in Hran.
    destruct (run_process e argv _) as [|rc out2].
    + destruct Hran as (_ & -> & _). exact Hf2.
    + destruct Hran as (-> & _). exact Hf3.
  - destruct Hpast as (_ & _ & -> & _). exact Hf1.
Qed.

(** After a run in which the formatter ran to its end, the manifest is
    gone. *)
Lemma manifest_gone g check w o w' s1 s2 rc out :
  Format.format_cpp e g check w = (o, w') ->
  spawned w' = spawned w ++ [s1; s2] ->
  sp_result s2 = Finished rc out ->
  fs w' !! manifest_path e = None.
Proof.
  intros Hrun Hrec Hres.
  destruct (format_cpp_invoked e g check w o w' s1 s2 Hrun Hrec)
    as (out1 & argv & _ & _ & _ & Hran).
  unfold formatter_ran in Hran. rewrite Hres in Hran.
  destruct Hran as [-> _]. apply lookup_delete_eq.
Qed.

End Persistence.







(* ===================================================================== *)
(** ** The script from the command line to the exit status                *)
(* ===================================================================== *)

Section Script.

Context (e : Env).

(** A command line that is accepted leaves the world as it is. *)
Lemma parse_args_ok arguments argv w ns w' :
  parse_args arguments argv w = (Ok ns, w') -> w' = w.
Proof.
  revert ns w'. induction argv as [|a argv IH]; intros ns w' Hp; simpl in Hp.
  - unfold ret in Hp. by simplify_eq.
  - case_bool_decide.
    + unfold bind, print, exit in Hp. by simplify_eq.
    + destruct (List.find _ arguments).
      * unfold bind in Hp.
        destruct (parse_args arguments argv w) as [[ns1|x|c] w1] eqn:Hrec;
          unfold ret in Hp; simplify_eq. by eapply IH.
      * unfold bind, print, exit in Hp. by simplify_eq.
Qed.

(** The script runs [format_cpp] on the globals of import time with the
    flag of the command line, unless the command line is refused. *)
Lemma main_runs w o w' :
  Format.main e w = (o, w') ->
  (exists ns,
     parse_args Format.arguments (sys_argv e) w = (Ok ns, w)
     /\ Format.format_cpp e (Format.import_module e (fs w))
          (bool_decide ("check" ∈ ns)) w = (o, w'))
  \/ (o <> Ok tt /\ fs w' = fs w /\ spawned w' = spawned w).
Proof.
  intros Hrun. unfold Format.main in Hrun.
  unfold bind at 1, get_fs in Hrun. simpl in Hrun. unfold bind at 1 in Hrun.
  destruct (parse_args Format.arguments (sys_argv e) w) as [[ns|x|c] w1] eqn:Hp.
  - pose proof (parse_args_ok _ _ _ _ _ Hp) as ->. left. by exists ns.
  - apply parse_args_frame in Hp as [? ?]. simplify_eq. by right.
  - apply parse_args_frame in Hp as [? ?]. simplify_eq. by right.
Qed.

End Script.





(* ===================================================================== *)
(** ** The command line of the formatter                                  *)
(* ===================================================================== *)

Section Lexer.

Lemma list_ascii_app (a b : string) :
  String.list_ascii_of_string (a +:+ b)
  = String.list_ascii_of_string a ++ String.list_ascii_of_string b.
Proof.
  induction a as [|c a IH]; [done|].
  change (String c a +:+ b) with (String c (a +:+ b)). simpl. by rewrite IH.
Qed.

Lemma push_append (t : string) (c : ascii) (s : string) :
  push t c +:+ s = t +:+ String c s.
Proof.
  unfold push. induction t as [|d t IH]; [done|].
  change (String d t +:+ String c "") with (String d (t +:+ String c "")).
  change (String d (t +:+ String c "") +:+ s)
    with (String d ((t +:+ String c "") +:+ s)).
  change (String d t +:+ String c s) with (String d (t +:+ String c s)).
  by rewrite IH.
Qed.

Lemma append_empty (t : string) : t +:+ "" = t.
Proof.
  induction t as [|d t IH]; [done|].
  change (String d t +:+ "") with (String d (t +:+ "")). by rewrite IH.
Qed.

(** Inside a word the lexer appends the characters that are not blank,
    quote or backslash. *)
Lemma lex_plain_word (cs : list ascii) (tok : string) (q : bool) (em : list string) :
  forallb plain_char cs = true ->
  fold_left lex_step cs (mkLexer LexWord tok q em)
  = mkLexer LexWord (tok +:+ String.string_of_list_ascii cs) q em.
Proof.
  revert tok. induction cs as [|c cs IH]; intros tok Hp; simpl.
  - by rewrite append_empty.
  - simpl in Hp. apply andb_true_iff in Hp as [Hc Hp].
    unfold plain_char in Hc. rewrite !andb_true_iff, !negb_true_iff in Hc.
    destruct Hc as [[Hw Hq] He].
    unfold lex_step at 2. simpl. rewrite Hw, Hq, He.
    rewrite IH by done. by rewrite push_append.
Qed.

(** The tokens found so far stay in front of the ones to come. *)
Lemma lex_step_emitted_after em l c :
  lex_step (emitted_after em l) c = emitted_after em (lex_step l c).
Proof.
  destruct l as [st tok q em']. unfold lex_step, emitted_after, emit_token. simpl.
  destruct st as [| |qc|[qc|]]; simpl;
    repeat match goal with
           | |- context [if ?b then _ else _] => destruct b; simpl
           end; try done;
    by rewrite ?app_assoc.
Qed.

Lemma fold_lex_emitted_after em cs l :
  fold_left lex_step cs (emitted_after em l)
  = emitted_after em (fold_left lex_step cs l).
Proof.
  revert l. induction cs as [|c cs IH]; intros l; simpl; [done|].
  by rewrite lex_step_emitted_after, IH.
Qed.

Lemma lex_end_emitted_after em l :
  lex_end (emitted_after em l) = (fun ts => em ++ ts) <$> lex_end l.
Proof.
  destruct l as [st tok q em']. unfold lex_end, emitted_after, emit_token. simpl.
  destruct st; simpl; try done.
  destruct (negb (bool_decide (tok = "")) || q); simpl; by rewrite ?app_assoc.
Qed.

(** The command line of a configuration file that needs no quoting splits
    into the words it was put together from. *)
Lemma shlex_split_command (cfg : string) (check : bool) :
  plain cfg ->
  shlex_split ("uncrustify -c " +:+ cfg +:+ " " +:+ Format.check_args check
               +:+ " -F " +:+ Format.temp_file_name)
  = Some (formatter_argv cfg check).
Proof.
  intros [Hne Hp]. unfold shlex_split.
  rewrite list_ascii_app, fold_left_app.
  change (fold_left lex_step (String.list_ascii_of_string "uncrustify -c ")
            (mkLexer LexSpace "" false []))
    with (mkLexer LexSpace "" false ["uncrustify"; "-c"]).
  rewrite list_ascii_app, fold_left_app.
  destruct cfg as [|c cs]; [done|]. simpl in Hp.
  apply andb_true_iff in Hp as [Hc Hp].
  assert (Hfirst : lex_step (mkLexer LexSpace "" false ["uncrustify"; "-c"]) c
                   = mkLexer LexWord (String c "") false ["uncrustify"; "-c"]).
  { unfold plain_char in Hc. rewrite !andb_true_iff, !negb_true_iff in Hc.
    destruct Hc as [[Hw Hq] He]. unfold lex_step. simpl. by rewrite Hw, He, Hq. }
  change (String.list_ascii_of_string (String c cs))
    with (c :: String.list_ascii_of_string cs).
  change (fold_left lex_step (c :: ?l) ?s) with (fold_left lex_step l (lex_step s c)).
  simpl fold_left at 2. rewrite Hfirst, lex_plain_word by done.
  rewrite String.string_of_list_ascii_of_string.
  change (String c "" +:+ cs) with (String c cs).
  assert (Hrest : exists chars,
            String.list_ascii_of_string
              (" " +:+ Format.check_args check +:+ " -F " +:+ Format.temp_file_name)
            = " "%char :: chars
            /\ lex_end (fold_left lex_step chars (mkLexer LexSpace "" false []))
               = Some ((if check then ["--check"]
                        else ["--replace"; "--no-backup"; "--if-changed"])
                       ++ ["-F"; "uncrustify_temp.txt"])).
  { destruct check; eexists; (split; [vm_compute; reflexivity|]);
      vm_compute; reflexivity. }
  destruct Hrest as (chars & -> & Hend). simpl fold_left.
  unfold lex_step at 2. simpl.
  change (mkLexer LexSpace "" false (emit_token (mkLexer LexWord (String c cs) false
                                                  ["uncrustify"; "-c"])))
    with (emitted_after ["uncrustify"; "-c"; String c cs] (mkLexer LexSpace "" false [])).
  rewrite fold_lex_emitted_after, lex_end_emitted_after, Hend. reflexivity.
Qed.

End Lexer.


(** The command line is accepted when each of its arguments is the flag,
    long or short; the flag is stored when there is one. *)
Lemma parse_args_check (argv : list string) (w : World) (ns : list string) (w1 : World) :
  parse_args Format.arguments argv w = (Ok ns, w1) ->
  Forall (fun a => a = "--check" \/ a = "-c") argv
  /\ ("check" ∈ ns <-> argv <> []).
Proof.
  revert ns w1. induction argv as [|a argv IH]; intros ns w1 Hp; simpl in Hp.
  - unfold ret in Hp. simplify_eq. split; [constructor|].
    split; [intros []%not_elem_of_nil|done].
  - case_bool_decide as Hh; [unfold bind, print, exit in Hp; by simplify_eq|].
    destruct (bool_decide (a ∈ ["--check"; "-c"])) eqn:Ha; simpl in Hp;
      [|unfold bind, print, exit in Hp; by simplify_eq].
    unfold bind in Hp.
    destruct (parse_args Format.arguments argv w) as [[ns1|x|c] w2] eqn:Hrec;
      unfold ret in Hp; simplify_eq.
    destruct (IH _ _ eq_refl) as [Hall _].
    apply bool_decide_eq_true in Ha. split.
    + constructor; [|done].
      rewrite !elem_of_cons, elem_of_nil in Ha. tauto.
    + split; [done|]. intros _. left.
Qed.

Lemma flag_given_check (e : Env) (w : World) (ns : list string) (w1 : World) :
  parse_args Format.arguments (sys_argv e) w = (Ok ns, w1) ->
  bool_decide ("check" ∈ ns) = flag_given e.
Proof.
  intros [Hall Hns]%parse_args_check. unfold flag_given.
  apply bool_decide_ext. rewrite Hns.
  destruct (sys_argv e) as [|a argv].
  - rewrite !elem_of_nil. tauto.
  - rewrite !elem_of_cons.
    apply Forall_cons in Hall as [[->| ->] _]; split; (done || tauto).
Qed.



(* ===================================================================== *)
(** ** The working directory                                              *)
(* ===================================================================== *)

(** Two closed values that differ are told apart by evaluation. *)
Ltac differ_goal :=
  match goal with
  | |- ?a <> ?b => apply (bool_decide_eq_false_1 (a = b)); vm_compute; reflexivity
  end.

(** C10. The directories the module adds to the exclusion list are the
    entries named [build*] below the directory that [../tests] names from
    the working directory of the process, not from the directory of the
    script.  So the list is no function of the script's location: for one
    tree and one script, started in [/proj/scripts] and in [/proj], the
    directory of the script and the search path are the same, the
    exclusion lists differ, and so do the candidate lists
    ([tests/unit/build_out/gen.c] is a candidate of the second run
    only). *)
Theorem C10_exclusions_follow_cwd :
  (forall e f,
     EXCLUDE_DIRECTORIES (Format.import_module e f)
     = Format.EXCLUDE_DIRECTORIES_listed
       ++ ((fun rest => rel ([".."; "tests"] ++ rest))
             <$> glob_under f (realpath MAXSYMLINKS f [".."; "tests"] (cwd e))
                   (fun name => startswith name "build"))
     /\ EXCLUDE_DIRECTORIES (Formatter.import_module e f)
        = EXCLUDE_DIRECTORIES (Format.import_module e f))
  /\ (let f := Sample.tree_tests in
      let e1 := Sample.env_in ["proj"; "scripts"] [] Sample.tool_ok in
      let e2 := Sample.env_in ["proj"] [] Sample.tool_ok in
      let g1 := Format.import_module e1 f in
      let g2 := Format.import_module e2 f in
      Format.PATH_OF_THIS_FILE e1 = Format.PATH_OF_THIS_FILE e2
      /\ SEARCH_PATH g1 = SEARCH_PATH g2
      /\ EXCLUDE_DIRECTORIES g1 <> EXCLUDE_DIRECTORIES g2
      /\ rel [".."; "tests"; "unit"; "build_out"] ∈ EXCLUDE_DIRECTORIES g1
      /\ (rel [".."; "tests"; "unit"; "build_out"] ∉ EXCLUDE_DIRECTORIES g2)
      /\ candidates e1 g1 f <> candidates e2 g2 f
      /\ (abs ["proj"; "tests"; "unit"; "build_out"; "gen.c"] ∉ candidates e1 g1 f)
      /\ abs ["proj"; "tests"; "unit"; "build_out"; "gen.c"] ∈ candidates e2 g2 f
      /\ Format.generate_list_of_files_to_format e1 g1 (Sample.world f)
         = (Ok (candidates e1 g1 f), Sample.world f)
      /\ Format.generate_list_of_files_to_format e2 g2 (Sample.world f)
         = (Ok (candidates e2 g2 f), Sample.world f)).
Proof.
  split.
  - intros e f. split; reflexivity.
  - intros f e1 e2 g1 g2.
    assert (Hin : forall (x : Path) (l : list Path), bool_decide (x ∈ l) = true -> x ∈ l)
      by (intros x l H; by apply bool_decide_eq_true in H).
    assert (Hout : forall (x : Path) (l : list Path), bool_decide (x ∈ l) = false -> x ∉ l)
      by (intros x l H; by apply bool_decide_eq_false in H).
    split; [vm_compute; reflexivity|]. split; [vm_compute; reflexivity|].
    split; [differ_goal|].
    split; [apply Hin; vm_compute; reflexivity|].
    split; [apply Hout; vm_compute; reflexivity|].
    split; [differ_goal|].
    split; [apply Hout; vm_compute; reflexivity|].
    split; [apply Hin; vm_compute; reflexivity|].
    split; apply generate_list_candidates.
Qed.

(* ===================================================================== *)
(** ** The two implementations side by side                               *)
(* ===================================================================== *)

Section Compared.

Context (e : Env).

(** Two continuations that agree on what the first step returns. *)
Lemma bind_ext {A B} (m : M A) (k1 k2 : A -> M B) w :
  (forall a w', m w = (Ok a, w') -> k1 a w' = k2 a w') ->
  bind m k1 w = bind m k2 w.
Proof. intros H. unfold bind. destruct (m w) as [[a|x|c] w']; auto. Qed.

(** The version check leaves the file system alone. *)
Lemma correct_uncrustify_version_frame w o w' :
  Format.correct_uncrustify_version e w = (o, w') -> fs w' = fs w.
Proof.
  unfold Format.correct_uncrustify_version, check_output, spawn, bind. simpl.
  destruct (run_process e _ (fs w)) as [|rc out].
  - unfold raise. intros. by simplify_eq.
  - case_bool_decide; unfold ret, raise; intros; by simplify_eq.
Qed.

(** Where the walk finds nothing both loops return the empty list. *)
Lemma generate_list_same g w :
  Format.walk e g (fs w) = [] ->
  Formatter._generate_list_of_files_to_format e g w
  = Format.generate_list_of_files_to_format e g w.
Proof.
  intros Hw.
  unfold Formatter._generate_list_of_files_to_format,
    Format.generate_list_of_files_to_format, bind, get_fs. simpl.
  rewrite formatter_walk, Hw. reflexivity.
Qed.

(** On the same globals and a tree without candidates, [format_cpp] is
    [_format_cpp] after the first lines have written their file. *)
Lemma format_cpp_after_dump g check w w1 :
  write_file e (strftime (now e)) (Format.exclusions_text g) w = (Ok tt, w1) ->
  Format.walk e g (fs w1) = [] ->
  Format.format_cpp e g check w = Formatter._format_cpp e g check w1.
Proof.
  intros Hdump Hwalk. unfold Format.format_cpp.
  rewrite (bind_ok _ _ _ _ _ Hdump). unfold Formatter._format_cpp.
  change (Formatter._correct_uncrustify_version e)
    with (Format.correct_uncrustify_version e).
  apply bind_ext. intros ok w2 Hv.
  apply correct_uncrustify_version_frame in Hv.
  apply bind_ext. intros [] w3 Hp.
  assert (Hf3 : fs w3 = fs w1).
  { destruct ok; simpl in Hp; unfold ret, print in Hp; simplify_eq; simpl; done. }
  unfold bind at 1 6.
  rewrite generate_list_same by (by rewrite Hf3).
  reflexivity.
Qed.

End Compared.

(** C1, as stated, fails.  On a tree with nothing to format the two
    implementations name different configuration files, leave different
    file systems behind (format.py leaves its file named after the time of
    the run) and start the formatter with different command lines; on the
    sample tree format.py computes a candidate list where the class
    raises. *)
Lemma C1_implementations_differ :
  let e := Sample.env [] Sample.tool_ok in
  let w := Sample.world Sample.tree_bare in
  CONFIG_PATH (Format.import_module e (fs w))
  <> CONFIG_PATH (Formatter.import_module e (fs w))
  /\ fs (snd (Format.main e w)) <> fs (snd (Formatter.run e w))
  /\ (sp_argv <$> spawned (snd (Format.main e w)))
     <> (sp_argv <$> spawned (snd (Formatter.run e w)))
  /\ fst (Format.main e w) = Ok tt
  /\ fst (Formatter.run e w) = Ok tt
  /\ (let w2 := Sample.world Sample.tree in
      let g := Format.import_module e (fs w2) in
      fst (Format.generate_list_of_files_to_format e g w2)
      <> fst (Formatter._generate_list_of_files_to_format e g w2)).
Proof.
  intros e w.
  split; [differ_goal|].
  split.
  { intros H.
    apply (f_equal (fun m : FS => m !! dump_path e)) in H.
    vm_compute in H. discriminate H. }
  split; [differ_goal|].
  split; [vm_compute; reflexivity|].
  split; [vm_compute; reflexivity|].
  intros w2 g. vm_compute. discriminate.
Qed.

(** C1, amended.  The two implementations share the exclusion lists, the
    search path, the exclusion predicate, the walk, the manifest and the
    command line as a function of the globals; they differ in the
    configuration file ([uncrustify.cfg] in format.py,
    [configs/uncrustify.cfg] in formatter.py, both beside the script) and
    in that format.py first writes its file named after the time of the
    run.  On the same globals and a tree in which the walk finds nothing,
    [format_cpp] is that write followed by [_format_cpp]: the same outcome,
    output, processes and file system from there on. *)
Theorem C1_implementations_compared (e : Env) :
  (forall f,
     EXCLUDE_DIRECTORIES (Formatter.import_module e f)
     = EXCLUDE_DIRECTORIES (Format.import_module e f)
     /\ SEARCH_PATH (Formatter.import_module e f)
        = SEARCH_PATH (Format.import_module e f)
     /\ CONFIG_PATH (Format.import_module e f)
        = resolve e f (joinpath (Format.PATH_OF_THIS_FILE e) (rel ["uncrustify.cfg"]))
     /\ CONFIG_PATH (Formatter.import_module e f)
        = resolve e f (joinpath (Format.PATH_OF_THIS_FILE e)
                         (rel ["configs"; "uncrustify.cfg"])))
  /\ Formatter.EXCLUDE_FILES = Format.EXCLUDE_FILES
  /\ (forall g f file,
        Formatter._is_file_excluded e g f file = Format.is_file_excluded e g f file)
  /\ (forall g f, Formatter.walk e g f = Format.walk e g f)
  /\ (forall g check files,
        Formatter.command g check = Format.command g check
        /\ Formatter.manifest files = Format.manifest files)
  /\ (forall g check w w1,
        write_file e (strftime (now e)) (Format.exclusions_text g) w = (Ok tt, w1) ->
        Format.walk e g (fs w1) = [] ->
        Format.format_cpp e g check w = Formatter._format_cpp e g check w1).
Proof.
  split; [intros f; repeat split|].
  split; [reflexivity|]. split; [reflexivity|]. split; [reflexivity|].
  split; [intros; split; reflexivity|].
  intros g check w w1. apply format_cpp_after_dump.
Qed.

(** On the tree with nothing to format, in check mode. *)
Lemma C1_implementations_compared_witness :
  let e := Sample.env ["--check"] Sample.tool_ok in
  let w := Sample.world Sample.tree_bare in
  let g := Format.import_module e (fs w) in
  Format.format_cpp e g true w
  = Formatter._format_cpp e g true
      (mkWorld (<[dump_path e := File (Format.exclusions_text g)]> (fs w)) [] []).
Proof.
  intros e w g.
  destruct (C1_implementations_compared e) as (_ & _ & _ & _ & _ & Hrun).
  apply Hrun; by_evaluation.
Defined.

(* ===================================================================== *)
(** ** The version query                                                  *)
(* ===================================================================== *)

Section Strip.

Context (chars : list Byte.byte).

(** [lstrip] drops a run of bytes of [chars] and stops at the first byte
    that is none. *)
Lemma lstrip_split (bs : list Byte.byte) :
  exists pre, bs = pre ++ lstrip chars bs /\ Forall (fun b => b ∈ chars) pre.
Proof.
  induction bs as [|b bs [pre [Hbs Hpre]]]; simpl.
  - by exists [].
  - case_bool_decide as Hb.
    + exists (b :: pre). split; [simpl; by f_equal|by constructor].
    + by exists [].
Qed.

Lemma lstrip_stops (bs : list Byte.byte) (b : Byte.byte) (rest : list Byte.byte) :
  lstrip chars bs = b :: rest -> b ∉ chars.
Proof.
  induction bs as [|c bs IH]; simpl; [done|].
  case_bool_decide as Hc; [done|]. intros H. by simplify_eq.
Qed.

Lemma lstrip_run (pre bs : list Byte.byte) :
  Forall (fun b => b ∈ chars) pre -> lstrip chars (pre ++ bs) = lstrip chars bs.
Proof.
  induction 1 as [|b pre Hb Hpre IH]; simpl; [done|].
  by rewrite bool_decide_eq_true_2.
Qed.

Lemma lstrip_done (b : Byte.byte) (bs : list Byte.byte) :
  b ∉ chars -> lstrip chars (b :: bs) = b :: bs.
Proof. intros Hb. simpl. by rewrite bool_decide_eq_false_2. Qed.

(** [strip] gives back a word that neither starts nor ends with a byte of
    [chars] exactly from that word with such bytes before and after it. *)
Lemma strip_word (out word : list Byte.byte) (first last : Byte.byte) (mid : list Byte.byte) :
  word = first :: mid ++ [last] -> first ∉ chars -> last ∉ chars ->
  strip chars out = word
  <-> exists pre post,
        out = pre ++ word ++ post
        /\ Forall (fun b => b ∈ chars) pre /\ Forall (fun b => b ∈ chars) post.
Proof.
  intros Hword Hfirst Hlast. unfold strip. split.
  - intros Hs.
    destruct (lstrip_split out) as (pre & Hout & Hpre).
    destruct (lstrip_split (rev (lstrip chars out))) as (tsop & Hrev & Hpost).
    exists pre, (rev tsop). split; [|split; [done|]].
    + rewrite Hout at 1. f_equal.
      rewrite <- (rev_involutive (lstrip chars out)), Hrev, rev_app_distr.
      by rewrite Hs.
    + by apply Forall_rev.
  - intros (pre & post & -> & Hpre & Hpost).
    rewrite lstrip_run by done. rewrite Hword at 1. simpl app.
    rewrite lstrip_done by done.
    change (first :: (mid ++ [last]) ++ post) with ((first :: mid ++ [last]) ++ post).
    rewrite <- Hword, rev_app_distr.
    rewrite lstrip_run by (by apply Forall_rev).
    rewrite Hword at 1. simpl rev. rewrite rev_app_distr. simpl app.
    rewrite lstrip_done by done.
    change (last :: rev mid ++ [first]) with (rev [last] ++ rev mid ++ rev [first]).
    rewrite <- !rev_app_distr, rev_involutive. by rewrite Hword.
Qed.

End Strip.


(* ===================================================================== *)
(** ** Below an excluded directory, and trees with nothing to format      *)
(* ===================================================================== *)

Section Below.

Lemma append_assoc (a b c : string) : (a +:+ b) +:+ c = a +:+ (b +:+ c).
Proof.
  induction a as [|x a IH]; [done|].
  change (String x a +:+ b) with (String x (a +:+ b)).
  change (String x (a +:+ b) +:+ c) with (String x ((a +:+ b) +:+ c)).
  change (String x a +:+ (b +:+ c)) with (String x (a +:+ (b +:+ c))).
  by rewrite IH.
Qed.

(** The text of a longer path starts with the text of the path it
    extends. *)
Lemma join_sep_app (ps rest : list string) :
  exists s, join_sep (ps ++ rest) = join_sep ps +:+ s.
Proof.
  induction ps as [|p ps IH].
  - by exists (join_sep rest).
  - destruct ps as [|q ps].
    + destruct rest as [|r rest].
      * exists "". simpl. by rewrite append_empty.
      * by exists ("/" +:+ join_sep (r :: rest)).
    + destruct IH as [s Hs]. exists s.
      change (join_sep ((p :: q :: ps) ++ rest))
        with (p +:+ "/" +:+ join_sep ((q :: ps) ++ rest)).
      rewrite Hs.
      change (join_sep (p :: q :: ps)) with (p +:+ "/" +:+ join_sep (q :: ps)).
      by rewrite !append_assoc.
Qed.

Lemma as_posix_below (ps rest : list string) :
  exists s, as_posix (abs (ps ++ rest)) = as_posix (abs ps) +:+ s.
Proof.
  destruct (join_sep_app ps rest) as [s Hs]. exists s.
  unfold as_posix. simpl. by rewrite Hs, append_assoc.
Qed.

End Below.

(** X2. The directory test of [is_file_excluded] covers the whole tree
    below an excluded directory: every path that extends the resolved path
    of a directory on the list, by any components and with any name, is
    excluded, and so it is never a candidate. *)
Theorem below_excluded_directory (e : Env) (g : Globals) (f : FS)
  (d : Path) (rest : list string) :
  d ∈ EXCLUDE_DIRECTORIES g ->
  let file := abs (parts (Format.evaluate_relative_path e f d) ++ rest) in
  Format.is_file_excluded e g f file = true
  /\ file ∉ candidates e g f.
Proof.
  intros Hd file.
  assert (Hx : Format.is_file_excluded e g f file = true).
  { apply is_file_excluded_iff. left. exists d. split; [exact Hd|].
    apply (as_posix_below (parts (Format.evaluate_relative_path e f d)) rest). }
  split; [exact Hx|].
  intros [Hn _]%elem_of_candidates. congruence.
Qed.

Lemma below_excluded_directory_witness :
  let e := Sample.env [] Sample.tool_ok in
  let g := Format.import_module e Sample.tree in
  let file := abs ["proj"; "build"; "gen.c"] in
  Format.is_file_excluded e g Sample.tree file = true
  /\ file ∉ candidates e g Sample.tree.
Proof.
  intros e g file.
  apply (below_excluded_directory e g Sample.tree (rel [".."; "build"]) ["gen.c"]).
  by_evaluation.
Defined.

Section Nothing.

Context (e : Env) (g : Globals).

(** A walk that nothing qualifies for yields nothing. *)
Lemma walk_nothing (f : FS) :
  (forall rest, source_entry f (search_root e g f) rest = false) ->
  Format.walk e g f = [].
Proof.
  intros Hno. apply elem_of_nil_inv. intros p (rest & _ & Hs)%elem_of_walk.
  rewrite Hno in Hs. discriminate Hs.
Qed.

(** Below a search root that is no directory nothing is walked. *)
Lemma source_entry_no_root (f : FS) (root rest : list string) :
  lookup_node f root <> Some Dir -> source_entry f root rest = false.
Proof.
  intros Hroot. apply not_true_is_false.
  intros (_ & Hne & _ & Hw)%source_entry_true.
  destruct rest as [|r rest]; [done|].
  unfold walkable in Hw. simpl in Hw. apply andb_true_iff in Hw as [Hw _].
  apply bool_decide_eq_true in Hw. by rewrite app_nil_r in Hw.
Qed.

End Nothing.



(* ===================================================================== *)
(** ** The runs of format_cpp in closed form                              *)
(* ===================================================================== *)

Section Stages.

Context (e : Env).

(** The version check and the warning, with the rest of the run behind
    them: a query that cannot be answered ends the run. *)
Lemma version_stage {B} (k : unit -> M B) (w : World) :
  (ok <- Format.correct_uncrustify_version e ;;
   bind (if negb ok then print warning_line else ret tt) k) w
  = let w1 := mkWorld (fs w) (stdout w)
                (spawned w ++ [mkSpawn version_argv (fs w)
                                 (run_process e version_argv (fs w))]) in
    match run_process e version_argv (fs w) with
    | LaunchError => (Raise FileNotFoundError, w1)
    | Finished rc out =>
        if bool_decide (rc = 0%Z)
        then k tt (mkWorld (fs w) (stdout w ++ version_lines out) (spawned w1))
        else (Raise (CalledProcessError rc), w1)
    end.
Proof.
  unfold Format.correct_uncrustify_version, check_output, spawn.
  unfold bind at 1 2 3. simpl. fold version_argv.
  destruct (run_process e version_argv (fs w)) as [|rc out]; [done|].
  case_bool_decide as Hrc; [|done]. unfold ret at 1. unfold version_lines.
  destruct (bool_decide (strip [Byte.x0d; Byte.x0a] out
                         = Format.UNCRUSTIFY_VERSION_TO_CHECK)); simpl.
  - unfold bind, ret. simpl. by rewrite app_nil_r.
  - unfold bind, print. reflexivity.
Qed.

(** From the manifest to the end of the run, where the name of the
    manifest is free in an existing working directory. *)
Lemma formatter_stage (g : Globals) (check : bool) (files : list Path) (w : World) :
  lookup_node (fs w) (cwd e) = Some Dir ->
  fs w !! manifest_path e = None ->
  let f2 := <[manifest_path e := File (Format.manifest files)]> (fs w) in
  let lines := stdout w ++ ["> " +:+ Format.command g check] in
  (write_file e Format.temp_file_name (Format.manifest files) ;;;
   exit_code <- Format.execute_command e (Format.command g check) ;;
   os_remove e Format.temp_file_name ;;;
   if bool_decide (exit_code <> 0%Z)
   then print ("COMMAND FAILED (exit code: " +:+ pretty exit_code +:+ ")") ;;;
        exit exit_code
   else ret tt) w
  = match shlex_split (Format.command g check) with
    | None => (Raise ValueError, mkWorld f2 lines (spawned w))
    | Some argv =>
        let record := spawned w ++ [mkSpawn argv f2 (run_process e argv f2)] in
        match run_process e argv f2 with
        | LaunchError => (Raise FileNotFoundError, mkWorld f2 lines record)
        | Finished rc _ =>
            if bool_decide (rc <> 0%Z)
            then (SysExit rc, mkWorld (fs w) (lines ++ [failure_notice rc]) record)
            else (Ok tt, mkWorld (fs w) lines record)
        end
    end.
Proof.
  intros Hcwd Hfree f2 lines.
  destruct (write_file_fresh e Format.temp_file_name (Format.manifest files) w)
    as [_ Hman]; [done|done|done|].
  rewrite (bind_ok _ _ _ _ _ Hman). fold (manifest_path e). fold f2.
  unfold Format.execute_command. unfold bind at 1 2, print. simpl. fold lines.
  destruct (shlex_split (Format.command g check)) as [argv|]; [|done].
  unfold popen_wait, spawn, bind at 1. simpl.
  destruct (run_process e argv f2) as [|rc out2]; [done|].
  unfold ret at 1.
  assert (Hn : f2 !! (cwd e ++ [Format.temp_file_name])
               = Some (File (Format.manifest files))).
  { apply lookup_insert_eq. }
  erewrite (bind_ok _ _ _ _ _ (os_remove_entry e Format.temp_file_name f2 _ _ _ Hn _)).
  fold (manifest_path e). unfold f2. rewrite delete_insert_id by done.
  case_bool_decide as Hrc.
  - unfold bind, print, exit. reflexivity.
  - reflexivity.
  Unshelve. done.
Qed.

(** The first lines of [format_cpp] in an existing working directory with
    the name of their file free: that file is written, and the manifest
    has the same room as before. *)
Lemma dump_stage (g : Globals) (w : World) :
  lookup_node (fs w) (cwd e) = Some Dir ->
  fs w !! dump_path e = None ->
  let f1 := <[dump_path e := File (Format.exclusions_text g)]> (fs w) in
  write_file e (strftime (now e)) (Format.exclusions_text g) w
  = (Ok tt, mkWorld f1 (stdout w) (spawned w))
  /\ with_dump e g (fs w) = f1
  /\ lookup_node f1 (cwd e) = Some Dir
  /\ f1 !! manifest_path e = fs w !! manifest_path e.
Proof.
  intros Hcwd Hdump f1.
  destruct (write_file_fresh e (strftime (now e)) (Format.exclusions_text g) w
              (strftime_not_parent _) Hcwd Hdump) as [Ht Hw1].
  split; [exact Hw1|]. split; [unfold with_dump; by rewrite Ht|]. split.
  - unfold f1, lookup_node. destruct (cwd e) as [|c cs] eqn:Hc; [done|].
    rewrite lookup_insert_ne; [exact Hcwd|].
    unfold dump_path. rewrite Hc. intros H.
    apply (f_equal List.length) in H. rewrite length_app in H. simpl in H. lia.
  - unfold f1. rewrite lookup_insert_ne; [done|]. apply dump_not_manifest.
Qed.

End Stages.



(** X5. A command line that [shlex.split] rejects ends the run with
    [ValueError] once the manifest is written: the command line is printed,
    no formatter is started, and the manifest stays on disk beside the file
    named after the time of the run. *)
Theorem unsplit_command_keeps_manifest (e : Env) (g : Globals) (check : bool)
  (w : World) (out : list Byte.byte) :
  lookup_node (fs w) (cwd e) = Some Dir ->
  fs w !! dump_path e = None ->
  fs w !! manifest_path e = None ->
  shlex_split (Format.command g check) = None ->
  let f1 := <[dump_path e := File (Format.exclusions_text g)]> (fs w) in
  let f2 := <[manifest_path e := File (Format.manifest (candidates e g f1))]> f1 in
  run_process e version_argv f1 = Finished 0 out ->
  Format.format_cpp e g check w
  = (Raise ValueError,
     mkWorld f2 (stdout w ++ version_lines out ++ ["> " +:+ Format.command g check])
       (spawned w ++ [mkSpawn version_argv f1 (Finished 0 out)])).
Proof.
  intros Hcwd Hdump Hman Hsplit f1 f2 Hv.
  destruct (dump_stage e g w Hcwd Hdump) as (Hw1 & _ & Hcwd1 & Hman1).
  fold f1 in Hw1, Hcwd1, Hman1. rewrite Hman in Hman1.
  unfold Format.format_cpp. rewrite (bind_ok _ _ _ _ _ Hw1).
  fold warning_line. rewrite version_stage. simpl. rewrite Hv. simpl.
  rewrite (bind_ok _ _ _ _ _ (generate_list_candidates e g _)).
  cbn [fs].
  match goal with
  | |- _ ?w2 = _ =>
      rewrite (formatter_stage e g check (candidates e g f1) w2 Hcwd1 Hman1)
  end.
  rewrite Hsplit. cbn [fs stdout spawned]. by rewrite <- app_assoc.
Qed.

Lemma unsplit_command_keeps_manifest_witness :
  let e := mkEnv ["dan's"; "scripts"] (abs ["dan's"; "scripts"; "format.py"])
             [] Sample.at_noon Sample.tool_ok in
  let f : FS := {[ ["dan's"] := Dir; ["dan's"; "scripts"] := Dir ]} in
  let w := Sample.world f in
  let g := Format.import_module e f in
  fst (Format.format_cpp e g false w) = Raise ValueError
  /\ fs (snd (Format.format_cpp e g false w)) !! manifest_path e = Some (File "").
Proof.
  intros e f w g.
  rewrite (unsplit_command_keeps_manifest e g false w
             (bytes "Uncrustify-0.72.0_f" ++ [Byte.x0a]));
    [split; by_evaluation|by_evaluation..].
Defined.

(* ===================================================================== *)
(** ** The command line as the lexer takes it                             *)
(* ===================================================================== *)

Section Words.

(** Between words, a word that needs no quoting and the blank after it
    add the word to the tokens. *)
Lemma lex_plain_token (s : string) (cs : list ascii) (em : list string) :
  plain s ->
  fold_left lex_step (String.list_ascii_of_string s ++ " "%char :: cs)
    (mkLexer LexSpace "" false em)
  = fold_left lex_step cs (mkLexer LexSpace "" false (em ++ [s])).
Proof.
  intros [Hne Hp]. destruct s as [|c s]; [done|]. simpl in Hp.
  apply andb_true_iff in Hp as [Hc Hp].
  change (String.list_ascii_of_string (String c s))
    with (c :: String.list_ascii_of_string s).
  rewrite <- app_comm_cons. simpl fold_left at 1.
  assert (Hfirst : lex_step (mkLexer LexSpace "" false em) c
                   = mkLexer LexWord (String c "") false em).
  { unfold plain_char in Hc. rewrite !andb_true_iff, !negb_true_iff in Hc.
    destruct Hc as [[Hw Hq] He]. unfold lex_step. simpl. by rewrite Hw, He, Hq. }
  rewrite Hfirst, fold_left_app, lex_plain_word by done.
  rewrite String.string_of_list_ascii_of_string.
  change (String c "" +:+ s) with (String c s). reflexivity.
Qed.

Lemma lex_plain_tokens (ws : list string) (cs : list ascii) (em : list string) :
  Forall plain ws ->
  fold_left lex_step (String.list_ascii_of_string (str_join " " ws) ++ " "%char :: cs)
    (mkLexer LexSpace "" false em)
  = fold_left lex_step cs (mkLexer LexSpace "" false (em ++ ws)).
Proof.
  intros Hws. revert em. induction Hws as [|s ws Hs Hws IH]; intros em.
  - simpl. by rewrite app_nil_r.
  - destruct ws as [|s2 ws].
    + by apply lex_plain_token.
    + change (str_join " " (s :: s2 :: ws))
        with (s +:+ " " +:+ str_join " " (s2 :: ws)).
      rewrite list_ascii_app, <- app_assoc.
      change (String.list_ascii_of_string (" " +:+ str_join " " (s2 :: ws)))
        with (" "%char :: String.list_ascii_of_string (str_join " " (s2 :: ws))).
      rewrite <- app_comm_cons, lex_plain_token by done.
      rewrite IH. by rewrite <- app_assoc.
Qed.

(** Inside single quotes every character but the quote is taken as it
    stands. *)
Lemma lex_in_single_quote (cs : list ascii) (tok : string) (q : bool) (em : list string) :
  "'"%char ∉ cs ->
  lstate (fold_left lex_step cs (mkLexer (LexQuote "'") tok q em)) = LexQuote "'".
Proof.
  revert tok q. induction cs as [|c cs IH]; intros tok q Hno; [done|].
  apply not_elem_of_cons in Hno as [Hc Hno]. simpl.
  unfold lex_step at 2. simpl. rewrite bool_decide_eq_false_2 by done.
  rewrite andb_false_r. by apply IH.
Qed.

Lemma tail_words (check : bool) :
  exists chars,
    String.list_ascii_of_string
      (" " +:+ Format.check_args check +:+ " -F " +:+ Format.temp_file_name)
    = " "%char :: chars
    /\ ("'"%char ∉ chars)
    /\ lex_end (fold_left lex_step chars (mkLexer LexSpace "" false []))
       = Some ((if check then ["--check"]
                else ["--replace"; "--no-backup"; "--if-changed"])
               ++ ["-F"; "uncrustify_temp.txt"]).
Proof.
  destruct check; eexists; (split; [vm_compute; reflexivity|]);
    (split; [|vm_compute; reflexivity]);
    apply (bool_decide_eq_false_1 _); vm_compute; reflexivity.
Qed.

End Words.

(** X6. The command line is put together without quoting, so a
    configuration path with blanks in it is split at each blank: the words
    of the path come out as arguments of their own, [-c] taking the first
    of them only. *)
Theorem command_split_at_blanks (g : Globals) (check : bool) (ws : list string) :
  as_posix (CONFIG_PATH g) = str_join " " ws ->
  Forall plain ws ->
  shlex_split (Format.command g check)
  = Some (["uncrustify"; "-c"] ++ ws
          ++ (if check then ["--check"] else ["--replace"; "--no-backup"; "--if-changed"])
          ++ ["-F"; "uncrustify_temp.txt"])
  /\ Formatter.command g check = Format.command g check.
Proof.
  intros Hcfg Hws. split; [|reflexivity].
  unfold Format.command, shlex_split. rewrite Hcfg.
  rewrite list_ascii_app, fold_left_app.
  change (fold_left lex_step (String.list_ascii_of_string "uncrustify -c ")
            (mkLexer LexSpace "" false []))
    with (mkLexer LexSpace "" false ["uncrustify"; "-c"]).
  rewrite list_ascii_app.
  destruct (tail_words check) as (chars & -> & _ & Hend).
  rewrite lex_plain_tokens by done.
  rewrite <- (app_nil_r (["uncrustify"; "-c"] ++ ws)).
  change (mkLexer LexSpace "" false ((["uncrustify"; "-c"] ++ ws) ++ []))
    with (emitted_after (["uncrustify"; "-c"] ++ ws) (mkLexer LexSpace "" false [])).
  rewrite fold_lex_emitted_after, lex_end_emitted_after, Hend. reflexivity.
Qed.

(** A project checked out under [/my proj]. *)
Lemma command_split_at_blanks_witness :
  let e := mkEnv ["my proj"; "scripts"] (abs ["my proj"; "scripts"; "format.py"])
             [] Sample.at_noon Sample.tool_ok in
  shlex_split (Format.command (Format.import_module e ∅) false)
  = Some ["uncrustify"; "-c"; "/my"; "proj/scripts/uncrustify.cfg";
          "--replace"; "--no-backup"; "--if-changed"; "-F"; "uncrustify_temp.txt"].
Proof.
  intros e.
  apply (command_split_at_blanks (Format.import_module e ∅) false
           ["/my"; "proj/scripts/uncrustify.cfg"]).
  - by_evaluation.
  - by_evaluation.
Defined.

(** X7. A configuration path with a single quote in it leaves the command
    line with a quotation that is never closed: [shlex.split] raises. *)
Theorem command_open_quotation (g : Globals) (check : bool) (a b : string) :
  as_posix (CONFIG_PATH g) = a +:+ "'" +:+ b ->
  plain a ->
  "'"%char ∉ String.list_ascii_of_string b ->
  shlex_split (Format.command g check) = None.
Proof.
  intros Hcfg [Hne Hp] Hb.
  unfold Format.command, shlex_split. rewrite Hcfg.
  rewrite list_ascii_app, fold_left_app.
  change (fold_left lex_step (String.list_ascii_of_string "uncrustify -c ")
            (mkLexer LexSpace "" false []))
    with (mkLexer LexSpace "" false ["uncrustify"; "-c"]).
  rewrite !append_assoc, list_ascii_app, fold_left_app.
  destruct a as [|c a]; [done|]. simpl in Hp. apply andb_true_iff in Hp as [Hc Hp].
  change (String.list_ascii_of_string (String c a))
    with (c :: String.list_ascii_of_string a).
  simpl fold_left at 2.
  assert (Hfirst : lex_step (mkLexer LexSpace "" false ["uncrustify"; "-c"]) c
                   = mkLexer LexWord (String c "") false ["uncrustify"; "-c"]).
  { unfold plain_char in Hc. rewrite !andb_true_iff, !negb_true_iff in Hc.
    destruct Hc as [[Hw Hq] He]. unfold lex_step. simpl. by rewrite Hw, He, Hq. }
  rewrite Hfirst, lex_plain_word by done.
  change (String.list_ascii_of_string ("'" +:+ ?s))
    with ("'"%char :: String.list_ascii_of_string s).
  simpl fold_left. unfold lex_step at 2. simpl.
  unfold lex_end. rewrite lex_in_single_quote; [done|].
  rewrite list_ascii_app. destruct (tail_words check) as (chars & -> & Hno & _).
  rewrite elem_of_app, elem_of_cons. intros [?|[?|?]]; done.
Qed.

Lemma command_open_quotation_witness :
  let e := mkEnv ["dan's"; "scripts"] (abs ["dan's"; "scripts"; "format.py"])
             [] Sample.at_noon Sample.tool_ok in
  shlex_split (Format.command (Format.import_module e ∅) true) = None.
Proof.
  intros e.
  apply (command_open_quotation (Format.import_module e ∅) true
           "/dan" "s/scripts/uncrustify.cfg").
  - by_evaluation.
  - by_evaluation.
  - apply (bool_decide_eq_false_1 _). vm_compute. reflexivity.
Defined.

(* ===================================================================== *)
(** ** The class on a tree with nothing to format                         *)
(* ===================================================================== *)



(* ===================================================================== *)
(** ** Names that are taken, and requests for help                        *)
(* ===================================================================== *)

(** X9. A manifest name that is a symbolic link.  [open] writes through
    the link and [os.remove] unlinks the link itself: after a run in which
    the formatter ran to its end the link is gone, and the file it pointed
    to holds the manifest. *)
Theorem manifest_through_link (e : Env) (g : Globals) (check : bool)
  (w : World) (o : outcome unit) (w' : World) (s1 s2 : Spawn)
  (rc : Z) (out : list Byte.byte) :
  Format.format_cpp e g check w = (o, w') ->
  spawned w' = spawned w ++ [s1; s2] ->
  sp_result s2 = Finished rc out ->
  let f1 := with_dump e g (fs w) in
  open_target e f1 Format.temp_file_name <> manifest_path e ->
  (exists t, f1 !! manifest_path e = Some (Link t))
  /\ fs w' !! manifest_path e = None
  /\ fs w' !! open_target e f1 Format.temp_file_name
     = Some (File (Format.manifest (candidates e g f1))).
Proof.
  intros Hrun Hrec Hres f1 Hne.
  destruct (format_cpp_invoked e g check w o w' s1 s2 Hrun Hrec)
    as (out1 & argv & _ & _ & _ & Hran).
  unfold formatter_ran in Hran. rewrite Hres in Hran. destruct Hran as [Hfs _].
  fold f1 in Hfs. split; [|split].
  - destruct (open_target_entry e f1 Format.temp_file_name) as [Heq|Ht]; done.
  - rewrite Hfs. apply lookup_delete_eq.
  - rewrite Hfs. fold (manifest_path e).
    rewrite lookup_delete_ne by done. apply lookup_insert_eq.
Qed.

(** The sample tree with [uncrustify_temp.txt] a link to [list.txt]. *)
Lemma manifest_through_link_witness :
  let e := Sample.env [] Sample.tool_ok in
  let f : FS := <[manifest_path e := Link (rel ["list.txt"])]> Sample.tree in
  let w := Sample.world f in
  let g := Format.import_module e f in
  fs (snd (Format.format_cpp e g false w)) !! manifest_path e = None
  /\ exists c, fs (snd (Format.format_cpp e g false w))
                 !! (Sample.scripts ++ ["list.txt"]) = Some (File c).
Proof.
  intros e f w g.
  destruct (manifest_through_link e g false w
              (fst (Format.format_cpp e g false w)) (snd (Format.format_cpp e g false w))
              (version_spawn e g w) (formatter_spawn e g false w) 0%Z [])
    as (_ & Hgone & Hkept);
    [apply surjective_pairing|by_evaluation|by_evaluation|by_evaluation|].
  split; [exact Hgone|].
  eexists. exact Hkept.
Defined.

(** X10. A manifest name taken by a directory: the run ends with
    [IsADirectoryError] after the version check, with the file named after
    the time of the run written and no formatter started. *)
Theorem manifest_name_taken (e : Env) (g : Globals) (check : bool)
  (w : World) (out : list Byte.byte) :
  lookup_node (fs w) (cwd e) = Some Dir ->
  fs w !! dump_path e = None ->
  fs w !! manifest_path e = Some Dir ->
  let f1 := <[dump_path e := File (Format.exclusions_text g)]> (fs w) in
  run_process e version_argv f1 = Finished 0 out ->
  Format.format_cpp e g check w
  = (Raise IsADirectoryError,
     mkWorld f1 (stdout w ++ version_lines out)
       (spawned w ++ [mkSpawn version_argv f1 (Finished 0 out)])).
Proof.
  intros Hcwd Hdump Hman f1 Hv.
  destruct (dump_stage e g w Hcwd Hdump) as (Hw1 & _ & Hcwd1 & Hman1).
  fold f1 in Hw1, Hcwd1, Hman1. rewrite Hman in Hman1.
  unfold Format.format_cpp. rewrite (bind_ok _ _ _ _ _ Hw1).
  fold warning_line. rewrite version_stage. simpl. rewrite Hv. simpl.
  rewrite (bind_ok _ _ _ _ _ (generate_list_candidates e g _)).
  cbn [fs].
  apply bind_raise.
  unfold write_file, bind, get_fs. cbn [fs].
  destruct (open_target_entry e f1 Format.temp_file_name) as [Ht|[t Ht]]; [done| |].
  - rewrite Ht. fold (manifest_path e).
    assert (lookup_node f1 (manifest_path e) = Some Dir) as ->; [|done].
    unfold lookup_node. destruct (manifest_path e); [done|exact Hman1].
  - fold (manifest_path e) in Ht. congruence.
Qed.

Lemma manifest_name_taken_witness :
  let e := Sample.env [] Sample.tool_ok in
  let f : FS := <[manifest_path e := Dir]> Sample.tree in
  let w := Sample.world f in
  let g := Format.import_module e f in
  fst (Format.format_cpp e g false w) = Raise IsADirectoryError
  /\ spawned (snd (Format.format_cpp e g false w))
     = [mkSpawn version_argv (<[dump_path e := File (Format.exclusions_text g)]> f)
          (Finished 0 (bytes "Uncrustify-0.72.0_f" ++ [Byte.x0a]))].
Proof.
  intros e f w g.
  rewrite (manifest_name_taken e g false w (bytes "Uncrustify-0.72.0_f" ++ [Byte.x0a]));
    [split; reflexivity|by_evaluation..].
Defined.

Section Help.

(** Among the flag and the requests for help, the first request for help
    ends the parse with exit code 0. *)
Lemma parse_args_help (argv : list string) (w : World) :
  Forall (fun a => a ∈ ["-h"; "--help"; "--check"; "-c"]) argv ->
  Exists (fun a => a ∈ ["-h"; "--help"]) argv ->
  exists lines,
    parse_args Format.arguments argv w
    = (SysExit 0, mkWorld (fs w) (stdout w ++ lines) (spawned w)).
Proof.
  intros Hall Hex. induction Hall as [|a argv Ha Hall IH]; [by apply Exists_nil in Hex|].
  simpl. case_bool_decide as Hh.
  - exists ["usage"]. reflexivity.
  - apply Exists_cons in Hex as [Hex|Hex]; [done|].
    assert (Hflag : a ∈ ["--check"; "-c"]).
    { apply elem_of_cons in Ha as [->|Ha]; [destruct Hh; apply list_elem_of_here|].
      apply elem_of_cons in Ha as [->|Ha]; [|exact Ha].
      destruct Hh. apply list_elem_of_further, list_elem_of_here. }
    destruct (IH Hex) as [lines Hp].
    rewrite (bool_decide_eq_true_2 _ Hflag).
    exists lines. unfold bind. by rewrite Hp.
Qed.

End Help.

(** X11. A request for help formats nothing.  For a command line of the
    flag and [-h] or [--help], with at least one of the latter, the script
    and the class end with exit code 0 once the parser has printed: no file
    is written and no process is started. *)
Theorem help_formats_nothing (e : Env) (w : World) :
  Forall (fun a => a ∈ ["-h"; "--help"; "--check"; "-c"]) (sys_argv e) ->
  Exists (fun a => a ∈ ["-h"; "--help"]) (sys_argv e) ->
  exists lines,
    Format.main e w = (SysExit 0, mkWorld (fs w) (stdout w ++ lines) (spawned w))
    /\ Formatter.run e w = (SysExit 0, mkWorld (fs w) (stdout w ++ lines) (spawned w)).
Proof.
  intros Hall Hex.
  destruct (parse_args_help (sys_argv e) w Hall Hex) as [lines Hp].
  exists lines. unfold Format.main, Formatter.run, get_fs.
  change Formatter.arguments with Format.arguments.
  split; unfold bind at 1; cbn [fst snd]; unfold bind at 1; by rewrite Hp.
Qed.

Lemma help_formats_nothing_witness :
  let e := Sample.env ["--check"; "-h"] Sample.tool_ok in
  let w := Sample.world Sample.tree in
  exists lines,
    Format.main e w = (SysExit 0, mkWorld (fs w) (stdout w ++ lines) (spawned w))
    /\ Formatter.run e w = (SysExit 0, mkWorld (fs w) (stdout w ++ lines) (spawned w)).
Proof.
  intros e w. apply (help_formats_nothing e w); by_evaluation.
Defined.

(* ===================================================================== *)
(** ** What depends on the working directory                              *)
(* ===================================================================== *)

Section Location.

Context (e1 e2 : Env) (f : FS).
Hypothesis Hanchored : anchored (file_ e1) = true.
Hypothesis Hfile : file_ e2 = file_ e1.

(** An absolute path resolves the same way from every working
    directory. *)
Lemma resolve_anchored (p : Path) :
  anchored p = true -> resolve e2 f p = resolve e1 f p.
Proof. intros Hp. unfold resolve. by rewrite Hp. Qed.

Lemma PATH_OF_THIS_FILE_anchored :
  Format.PATH_OF_THIS_FILE e2 = Format.PATH_OF_THIS_FILE e1
  /\ anchored (Format.PATH_OF_THIS_FILE e1) = true.
Proof.
  unfold Format.PATH_OF_THIS_FILE, absolute, parent. rewrite Hfile. simpl.
  by rewrite Hanchored.
Qed.

Lemma evaluate_relative_path_anchored (p : Path) :
  Format.evaluate_relative_path e2 f p = Format.evaluate_relative_path e1 f p.
Proof.
  unfold Format.evaluate_relative_path.
  destruct PATH_OF_THIS_FILE_anchored as [-> Ha].
  apply resolve_anchored. unfold joinpath.
  destruct (anchored p) eqn:Hp; [exact Hp|exact Ha].
Qed.

Lemma existsb_pointwise {A} (p q : A -> bool) (l : list A) :
  (forall x, p x = q x) -> existsb p l = existsb q l.
Proof. intros Hpq. induction l as [|x l IH]; simpl; [done|]. by rewrite Hpq, IH. Qed.

Lemma is_file_excluded_anchored (g : Globals) (file : Path) :
  Format.is_file_excluded e2 g f file = Format.is_file_excluded e1 g f file.
Proof.
  unfold Format.is_file_excluded.
  rewrite (existsb_pointwise _
             (fun d => startswith (as_posix file)
                         (as_posix (Format.evaluate_relative_path e1 f d))))
    by (intros d; by rewrite evaluate_relative_path_anchored).
  rewrite (existsb_pointwise _
             (fun x => bool_decide (as_posix file
                                    = as_posix (Format.evaluate_relative_path e1 f x)))
             Format.EXCLUDE_FILES)
    by (intros x; by rewrite evaluate_relative_path_anchored).
  reflexivity.
Qed.

Lemma glob_anchored (base : Path) (m : string -> bool) :
  anchored base = true -> glob e2 f base m = glob e1 f base m.
Proof. intros Hb. unfold glob. by rewrite resolve_anchored. Qed.

Lemma walk_anchored (g : Globals) : Format.walk e2 g f = Format.walk e1 g f.
Proof.
  unfold Format.walk. rewrite evaluate_relative_path_anchored.
  by rewrite !glob_anchored.
Qed.

Lemma candidates_anchored (g : Globals) : candidates e2 g f = candidates e1 g f.
Proof.
  unfold candidates. rewrite walk_anchored.
  assert (Hres : resolve e2 f <$> Format.walk e1 g f
                 = resolve e1 f <$> Format.walk e1 g f).
  { apply Forall_fmap_ext_1, Forall_forall.
    intros p (rest & -> & _)%elem_of_walk. by apply resolve_anchored. }
  rewrite Hres. apply list_filter_iff. intros file.
  by rewrite is_file_excluded_anchored.
Qed.

End Location.

(** X12. With an absolute [__file__] nothing but the globbed part of the
    exclusion list depends on the directory the script is started in: the
    paths resolved beside the script, the search path, the configuration
    path and, for one and the same exclusion list, the exclusion predicate,
    the walk and the candidate list are those of any other working
    directory. *)
Theorem location_independent (e1 e2 : Env) (f : FS) :
  anchored (file_ e1) = true ->
  file_ e2 = file_ e1 ->
  (forall p, Format.evaluate_relative_path e2 f p = Format.evaluate_relative_path e1 f p)
  /\ SEARCH_PATH (Format.import_module e2 f) = SEARCH_PATH (Format.import_module e1 f)
  /\ CONFIG_PATH (Format.import_module e2 f) = CONFIG_PATH (Format.import_module e1 f)
  /\ CONFIG_PATH (Formatter.import_module e2 f) = CONFIG_PATH (Formatter.import_module e1 f)
  /\ (forall g,
        (forall file, Format.is_file_excluded e2 g f file
                      = Format.is_file_excluded e1 g f file)
        /\ Format.walk e2 g f = Format.walk e1 g f
        /\ candidates e2 g f = candidates e1 g f).
Proof.
  intros Ha Hf.
  split; [apply (evaluate_relative_path_anchored e1 e2 f Ha Hf)|].
  split; [apply (evaluate_relative_path_anchored e1 e2 f Ha Hf)|].
  split; [apply (evaluate_relative_path_anchored e1 e2 f Ha Hf)|].
  split; [apply (evaluate_relative_path_anchored e1 e2 f Ha Hf)|].
  intros g.
  split; [apply (is_file_excluded_anchored e1 e2 f Ha Hf)|].
  split; [apply (walk_anchored e1 e2 f Ha Hf)|apply (candidates_anchored e1 e2 f Ha Hf)].
Qed.

(** The script of the sample tree, started beside itself and in the
    project directory, with the exclusion list of the first run. *)
Lemma location_independent_witness :
  let e1 := Sample.env [] Sample.tool_ok in
  let e2 := Sample.env_in ["proj"] [] Sample.tool_ok in
  let g := Format.import_module e1 Sample.tree_tests in
  candidates e2 g Sample.tree_tests = candidates e1 g Sample.tree_tests.
Proof.
  intros e1 e2 g.
  destruct (location_independent e1 e2 Sample.tree_tests) as (_ & _ & _ & _ & H);
    [reflexivity|reflexivity|].
  apply H.
Defined.

(* ===================================================================== *)
(** ** Trees without symbolic links                                       *)
(* ===================================================================== *)

Section LinkFree.

Context (f : FS).
Hypothesis Hplain : forall p t, f !! p <> Some (Link t).

Lemma not_elem_of_removelast (x : string) (l : list string) :
  x ∉ l -> x ∉ removelast l.
Proof.
  induction l as [|a l IH]; [done|]. intros [Ha Hl]%not_elem_of_cons.
  destruct l as [|b l]; [apply not_elem_of_nil|].
  change (removelast (a :: b :: l)) with (a :: removelast (b :: l)).
  apply not_elem_of_cons. split; [done|]. by apply IH.
Qed.

(** Without links a path resolves to its components with each [..]
    taken back: nothing of [..] is left in it. *)
Lemma realpath_no_parent (b : nat) (rest path : list string) :
  ".." ∉ path -> ".." ∉ realpath b f rest path.
Proof.
  revert path. induction rest as [|name rest IH]; intros path Hp.
  - by destruct b.
  - assert (Hstep : realpath b f (name :: rest) path
                    = if bool_decide (name = "..")
                      then realpath b f rest (removelast path)
                      else realpath b f rest (path ++ [name])).
    { destruct b; simpl; case_bool_decide; try done;
        destruct (f !! (path ++ [name])) as [[| |t]|] eqn:Hn; try done;
        by destruct (Hplain _ _ Hn). }
    rewrite Hstep. case_bool_decide as Hn.
    + apply IH. by apply not_elem_of_removelast.
    + apply IH. rewrite elem_of_app, list_elem_of_singleton. intros [?|?]; done.
Qed.

(** And a path without [..] is its own resolution. *)
Lemma realpath_resolved (b : nat) (rest path : list string) :
  ".." ∉ rest -> realpath b f rest path = path ++ rest.
Proof.
  revert path. induction rest as [|name rest IH]; intros path Hr.
  - destruct b; simpl; by rewrite app_nil_r.
  - apply not_elem_of_cons in Hr as [Hn Hr].
    assert (Hstep : realpath b f (name :: rest) path
                    = realpath b f rest (path ++ [name])).
    { destruct b; simpl; rewrite bool_decide_eq_false_2 by done;
        destruct (f !! (path ++ [name])) as [[| |t]|] eqn:Hl; try done;
        by destruct (Hplain _ _ Hl). }
    rewrite Hstep, IH by done. by rewrite <- app_assoc.
Qed.

Lemma resolve_resolved (e1 e2 : Env) (p : Path) :
  ".." ∉ cwd e1 -> resolve e2 f (resolve e1 f p) = resolve e1 f p.
Proof.
  intros Hcwd. unfold resolve, abs. cbn [parts anchored]. f_equal.
  apply realpath_resolved, realpath_no_parent.
  destruct (anchored p); [apply not_elem_of_nil|done].
Qed.

End LinkFree.

(** X13. On a tree without symbolic links [resolve] gives back a resolved
    path as it is, so the second evaluation of the search path in
    [generate_list_of_files_to_format] changes nothing: the walk starts at
    [SEARCH_PATH], and every path the walk yields is its own resolution. *)
Theorem search_path_resolved_once (e : Env) (f : FS) :
  (forall p t, f !! p <> Some (Link t)) ->
  ".." ∉ cwd e ->
  let g := Format.import_module e f in
  search_path e g f = SEARCH_PATH g
  /\ search_root e g f = parts (SEARCH_PATH g)
  /\ (forall rest, ".." ∉ rest -> resolved_entry e g f rest = yielded e g f rest).
Proof.
  intros Hplain Hcwd g.
  assert (Hsp : search_path e g f = SEARCH_PATH g).
  { unfold search_path, g. cbn [SEARCH_PATH Format.import_module].
    unfold Format.evaluate_relative_path at 1.
    unfold joinpath at 1, Format.evaluate_relative_path, resolve at 2, abs.
    cbn [anchored]. by apply resolve_resolved. }
  split; [exact Hsp|]. split.
  - unfold search_root. rewrite Hsp. unfold g. cbn [SEARCH_PATH Format.import_module].
    unfold Format.evaluate_relative_path. by rewrite resolve_resolved.
  - intros rest Hrest. unfold resolved_entry, yielded. rewrite Hsp.
    unfold g. cbn [SEARCH_PATH Format.import_module].
    unfold Format.evaluate_relative_path, resolve, abs. cbn [parts anchored].
    f_equal. apply (realpath_resolved f Hplain _ _ []).
    rewrite elem_of_app. intros [Hin|Hin]; [|done].
    revert Hin. apply realpath_no_parent; [done|].
    destruct (anchored _); [apply not_elem_of_nil|done].
Qed.

Lemma search_path_resolved_once_witness :
  let e := Sample.env [] Sample.tool_ok in
  let g := Format.import_module e Sample.tree in
  search_path e g Sample.tree = SEARCH_PATH g
  /\ search_root e g Sample.tree = ["proj"].
Proof.
  intros e g.
  destruct (search_path_resolved_once e Sample.tree) as (H1 & H2 & _).
  - intros p t Hp. apply (elem_of_map_to_list Sample.tree) in Hp.
    vm_compute in Hp.
    repeat (apply elem_of_cons in Hp as [Hp|Hp]; [discriminate Hp|]).
    destruct (not_elem_of_nil _ Hp).
  - apply (bool_decide_eq_false_1 _). vm_compute. reflexivity.
  - split; [exact H1|].
    transitivity (parts (SEARCH_PATH g)); [exact H2|vm_compute; reflexivity].
Defined.
